(** * PyPlag: a shallow embedding of [src/main.py] and its report post-processing

    The program runs the JPlag detector on a list of submissions and, when
    [filter_runs_by_author] is set, rewrites the produced [.jplag] archive so
    that comparisons between two submissions of the same author disappear
    ([PyPlag._post_process_jplag_results]).

    Modelling choices:
    - Python exceptions are the constructors of [PyError]; fallible code
      returns [res A] and is sequenced with [x <- c ;; k].
    - A Python [dict] with string keys is an association list ([dict V]);
      [d[k]] is [dict_getitem] (KeyError when absent), [d[k] = v] is
      [dict_setitem] (replace in place or append), [del d[k]] is
      [dict_delitem].
    - JSON documents are seen through the fields the code reads; a key the
      code subscripts is an [option] field, [None] when the key is absent.
      [json.load] and [json.dumps] belong to the standard library and are
      section variables ([load_overview], [dumps_overview], ...).
    - JSON numbers of the comparison files are Python floats: IEEE 754
      binary64 values ([float]), and [value * 100] is rounded to nearest as
      the hardware does.
    - The scratch directory is the list of its top-level entries; a
      sub-directory ([basecode], [files]) is carried along as a whole.
      Extracting the input zip and zipping the scratch directory with
      [ZIP_DEFLATED] keep every file's bytes, so both archives are modelled
      by the directory they unpack to. *)

From Stdlib Require Import String Ascii List ZArith QArith Qround Bool Lia.
Import ListNotations.

Open Scope string_scope.
Open Scope Z_scope.

(** ** Python runtime: exceptions, results, dicts and lists *)

Inductive PyError :=
| FileNotFoundError
| IsADirectoryError
| NotADirectoryError
| JSONDecodeError
| ValueError
| KeyError
| IndexError
| OverflowError
| PyPlagException (msg : string).

Inductive res (A : Type) : Type :=
| Ok (a : A)
| Err (e : PyError).
Arguments Ok {A} a.
Arguments Err {A} e.

Definition bind {A B} (r : res A) (k : A -> res B) : res B :=
  match r with
  | Ok a => k a
  | Err e => Err e
  end.

Notation "x <- c ;; k" := (bind c (fun x => k))
  (at level 61, c at next level, right associativity).

(** [d[k]] on a value that may lack the key. *)
Definition opt_getitem {A} (o : option A) : res A :=
  match o with
  | Some a => Ok a
  | None => Err KeyError
  end.

Definition dict (V : Type) := list (string * V).

Fixpoint dict_lookup {V} (k : string) (d : dict V) : option V :=
  match d with
  | [] => None
  | (k', v) :: d' => if String.eqb k k' then Some v else dict_lookup k d'
  end.

Definition dict_getitem {V} (k : string) (d : dict V) : res V :=
  opt_getitem (dict_lookup k d).

Fixpoint dict_setitem {V} (k : string) (v : V) (d : dict V) : dict V :=
  match d with
  | [] => [(k, v)]
  | (k', v') :: d' =>
      if String.eqb k k' then (k, v) :: d' else (k', v') :: dict_setitem k v d'
  end.

Definition dict_remove {V} (k : string) (d : dict V) : dict V :=
  filter (fun kv => negb (String.eqb k (fst kv))) d.

Definition dict_delitem {V} (k : string) (d : dict V) : res (dict V) :=
  match dict_lookup k d with
  | Some _ => Ok (dict_remove k d)
  | None => Err KeyError
  end.

(** Python list subscript [l[i]]: negative indices count from the end. *)
Definition py_index (len : nat) (i : Z) : res nat :=
  if (0 <=? i) && (i <? Z.of_nat len) then Ok (Z.to_nat i)
  else if (- Z.of_nat len <=? i) && (i <? 0) then Ok (Z.to_nat (Z.of_nat len + i))
  else Err IndexError.

Fixpoint list_update {A} (l : list A) (n : nat) (f : A -> A) : list A :=
  match l, n with
  | [], _ => []
  | x :: l', O => f x :: l'
  | x :: l', S n' => x :: list_update l' n' f
  end.

(** ** Python floats (IEEE 754 binary64) *)

(** A float: a finite value [m * 2^e], an infinity, or a NaN (the sign of a
    zero is not kept: nothing below observes it). *)
Inductive float :=
| Finite (m e : Z)
| Inf (negative : bool)
| NaN.

(** Rounding the exact value [p * 2^e] to binary64, to nearest with ties to
    even: the [k] low bits are dropped so that at most 53 significant bits
    remain and no bit lies below [2^-1074]; a result of [2^1024] or more is
    an infinity. *)
Definition round_binary64 (p e : Z) : float :=
  let a := Z.abs p in
  let k := Z.max (Z.log2 a + 1 - 53) (-1074 - e) in
  let q' := if k <=? 0 then a else
              let q := Z.shiftr a k in
              let r := a - Z.shiftl q k in
              let h := Z.shiftl 1 (k - 1) in
              if (h <? r) || ((r =? h) && Z.odd q) then q + 1 else q in
  let e' := if k <=? 0 then e else e + k in
  if negb (q' =? 0) && (1024 <=? Z.log2 q' + e') then Inf (p <? 0)
  else Finite (Z.sgn p * q') e'.

(** [float(n)] of an int, as [float * int] converts its right operand. *)
Definition float_of_int (n : Z) : float := round_binary64 n 0.

(** [x * y] on floats. *)
Definition float_mul (x y : float) : float :=
  match x, y with
  | NaN, _ | _, NaN => NaN
  | Inf s, Inf t => Inf (xorb s t)
  | Inf s, Finite m _ | Finite m _, Inf s =>
      if m =? 0 then NaN else Inf (xorb s (m <? 0))
  | Finite m1 e1, Finite m2 e2 => round_binary64 (m1 * m2) (e1 + e2)
  end.

(** [int(x)] on a float: truncation towards zero; a NaN raises ValueError
    and an infinity OverflowError. *)
Definition py_int (x : float) : res Z :=
  match x with
  | Finite m e => Ok (if 0 <=? e then m * 2 ^ e else Z.quot m (2 ^ (- e)))
  | Inf _ => Err OverflowError
  | NaN => Err ValueError
  end.

(** The value of a finite float, as a rational. *)
Definition finite_value (m e : Z) : Q :=
  if 0 <=? e then inject_Z (m * 2 ^ e) else m # Z.to_pos (2 ^ (- e)).

(** ** Strings: [str.split("-")], [str.rfind(".")], [Path.stem] *)

Fixpoint split_on (sep : ascii) (s : string) : list string :=
  match s with
  | EmptyString => [EmptyString]
  | String c rest =>
      let parts := split_on sep rest in
      if Ascii.eqb c sep then EmptyString :: parts
      else match parts with
           | w :: ws => String c w :: ws
           | [] => [String c EmptyString]
           end
  end.

Fixpoint rfind (c : ascii) (s : string) : option nat :=
  match s with
  | EmptyString => None
  | String c' rest =>
      match rfind c rest with
      | Some i => Some (S i)
      | None => if Ascii.eqb c' c then Some O else None
      end
  end.

(** [PurePath.stem] (CPython 3.12): [name[:i]] for [i = name.rfind('.')]
    when [0 < i < len(name) - 1], else the whole name. *)
Definition stem (name : string) : string :=
  match rfind "."%char name with
  | Some i =>
      if (0 <? i)%nat && (i <? String.length name - 1)%nat
      then substring 0 i name else name
  | None => name
  end.

Definition split_pair (name : string) : list string :=
  split_on "-"%char (stem name).

(** ** Data model *)

(** [PyPlagSubmission] (submission.py). *)
Record PyPlagSubmission := {
  id : string;
  lang : string;
  author : string;
  files : dict string
}.

(** A descriptor of [overview["top_comparisons"]]; the code reads its two
    submission ids, the rest of the JSON object is carried unread. *)
Record Descriptor := {
  first_submission : string;
  second_submission : string;
  descriptor_rest : string
}.

(** [overview.json], through the three keys the filter subscripts. *)
Record Overview := {
  distributions : option (dict (list Z));
  submission_ids_to_comparison_file_name : option (dict (dict string));
  top_comparisons : option (list Descriptor);
  overview_rest : string
}.

(** A pair-wise comparison file [<id1>-<id2>.json]. *)
Record Comparison := {
  cmp_id1 : option string;
  cmp_id2 : option string;
  similarities : option (dict float);
  matches : option (list string);
  first_similarity : option float;
  second_similarity : option float
}.

(** A top-level entry of the scratch directory. *)
Inductive Node :=
| NFile (content : string)
| NDir (entries : dict string).

Definition Dir := dict Node.

(** The writes and deletions the filter performs in the scratch directory. *)
Inductive Event :=
| EWrite (name : string) (content : string)
| EUnlink (name : string).

Record State := {
  st_dir : Dir;
  st_overview : Overview;
  st_log : list Event
}.

Definition set_dir (d : Dir) (st : State) : State :=
  {| st_dir := d; st_overview := st_overview st; st_log := st_log st |}.
Definition set_overview (ov : Overview) (st : State) : State :=
  {| st_dir := st_dir st; st_overview := ov; st_log := st_log st |}.
Definition log_event (e : Event) (st : State) : State :=
  {| st_dir := st_dir st; st_overview := st_overview st; st_log := st_log st ++ [e] |}.

Definition with_distributions (d : dict (list Z)) (ov : Overview) : Overview :=
  {| distributions := Some d;
     submission_ids_to_comparison_file_name := submission_ids_to_comparison_file_name ov;
     top_comparisons := top_comparisons ov;
     overview_rest := overview_rest ov |}.
Definition with_index (ix : dict (dict string)) (ov : Overview) : Overview :=
  {| distributions := distributions ov;
     submission_ids_to_comparison_file_name := Some ix;
     top_comparisons := top_comparisons ov;
     overview_rest := overview_rest ov |}.
Definition with_top (t : list Descriptor) (ov : Overview) : Overview :=
  {| distributions := distributions ov;
     submission_ids_to_comparison_file_name := submission_ids_to_comparison_file_name ov;
     top_comparisons := Some t;
     overview_rest := overview_rest ov |}.

Definition ignore_files : list string :=
  ["basecode"; "files"; "options.json"; "overview.json"; "README.txt";
   "submissionFileIndex.json"].

Definition is_ignored (name : string) : bool :=
  existsb (String.eqb name) ignore_files.

(** [submissions_dict = {submission.id: submission for submission in submissions}] *)
Definition submissions_dict (subs : list PyPlagSubmission) : dict PyPlagSubmission :=
  fold_left (fun d s => dict_setitem (id s) s d) subs [].

(** [open(path)] for reading, or with mode ["r+"]. *)
Definition read_file (name : string) (d : Dir) : res string :=
  match dict_lookup name d with
  | Some (NFile c) => Ok c
  | Some (NDir _) => Err IsADirectoryError
  | None => Err FileNotFoundError
  end.

(** ** [PyPlag.run] *)

Record PyPlagSettings := {
  java_cmd : string;
  jplag_jar : string;
  report_dir : list string;
  clustering : bool;
  filter_runs_by_author : bool;
  ignore_unsupported_language : bool
}.

Record CompletedProcess := {
  returncode : Z;
  proc_stdout : string;
  proc_stderr : string
}.

(** [PyPlagReport] (report.py). *)
Record PyPlagReport := {
  status : Z;
  stdout : string;
  stderr : string;
  report_path : string;
  report_min_path : option string
}.

Record PyPlag := {
  settings : PyPlagSettings;
  supported_languages : list string
}.

Definition path_str (p : list string) : string := String.concat "/" p.

(** ** [PyPlag.__init__] *)

(** The file system seen by the constructor: paths (as components) with
    their kind. *)
Inductive FKind := KFile | KDir.

Definition Tree := list (list string * FKind).

Fixpoint is_prefix (p q : list string) : bool :=
  match p, q with
  | [], _ => true
  | a :: p', b :: q' => String.eqb a b && is_prefix p' q'
  | _ :: _, [] => false
  end.

Definition path_eqb (p q : list string) : bool := is_prefix p q && is_prefix q p.

Definition path_kind (p : list string) (t : Tree) : option FKind :=
  option_map snd (find (fun e => path_eqb p (fst e)) t).

(** [Path.exists()] *)
Definition path_exists (p : list string) (t : Tree) : bool :=
  match path_kind p t with Some _ => true | None => false end.

(** [shutil.rmtree(p)]: the directory and everything below it. *)
Definition rmtree (p : list string) (t : Tree) : res Tree :=
  match path_kind p t with
  | Some KDir => Ok (filter (fun e => negb (is_prefix p (fst e))) t)
  | Some KFile => Err NotADirectoryError
  | None => Err FileNotFoundError
  end.

Definition default_supported_languages : list string :=
  ["c"; "cpp"; "csharp"; "emf"; "emf-model"; "go"; "java"; "javascript";
   "kotlin"; "llvmir"; "multi"; "python3"; "rlang"; "rust"; "scala";
   "scheme"; "scxml"; "swift"; "text"; "typescript"].

Definition __init__ (s : PyPlagSettings) (t : Tree) : res (Tree * PyPlag) :=
  t' <- (if path_exists (report_dir s) t then rmtree (report_dir s) t else Ok t) ;;
  Ok (t', {| settings := s; supported_languages := default_supported_languages |}).

(** ** Predicates used by the statements *)

(** The bucket of the specification: [floor(value * 100)] clamped to
    [[0, 99]]. *)
Definition spec_bucket (v : Q) : Z :=
  Z.max 0 (Z.min (Qfloor (v * inject_Z 100)) 99).

(** The histogram [h'] is [h] with the count at index [b] lowered by
    exactly one and every other count unchanged. *)
Definition decremented_at (h h' : option (list Z)) (b : Z) : Prop :=
  exists l l', h = Some l /\ h' = Some l' /\ length l' = length l /\
    0 <= b < Z.of_nat (length l) /\
    nth (Z.to_nat b) l' 0 = nth (Z.to_nat b) l 0 - 1 /\
    (forall i, i <> Z.to_nat b -> nth i l' 0 = nth i l 0).

(** A top-comparison descriptor names the unordered pair [{a, b}]. *)
Definition same_unordered_pair (a b : string) (d : Descriptor) : Prop :=
  (first_submission d = a /\ second_submission d = b) \/
  (first_submission d = b /\ second_submission d = a).

(** [overview["submission_ids_to_comparison_file_name"][s][t]], if any. *)
Definition index_lookup (ov : Overview) (s t : string) : option string :=
  match submission_ids_to_comparison_file_name ov with
  | Some ix =>
      match dict_lookup s ix with
      | Some row => dict_lookup t row
      | None => None
      end
  | None => None
  end.

(** A comparison entry named [<a>-<b>] whose two submissions share an
    author (a collision), or have different authors. *)
Definition collision_entry (submissions : dict PyPlagSubmission) (name a b : string)
  : Prop :=
  is_ignored name = false /\ split_pair name = [a; b] /\
  exists sa sb, dict_lookup a submissions = Some sa /\
    dict_lookup b submissions = Some sb /\ author sa = author sb.

Definition distinct_author_entry (submissions : dict PyPlagSubmission) (name a b : string)
  : Prop :=
  is_ignored name = false /\ split_pair name = [a; b] /\
  exists sa sb, dict_lookup a submissions = Some sa /\
    dict_lookup b submissions = Some sb /\ author sa <> author sb.

(** The data-model invariant of [submission_ids_to_comparison_file_name]:
    symmetric, and every referenced name is a comparison file of the
    directory named after the pair. *)
Definition index_consistent (ov : Overview) (d : Dir) : Prop :=
  (forall s t, index_lookup ov s t = index_lookup ov t s) /\
  (forall s t n, index_lookup ov s t = Some n ->
     (exists c, dict_lookup n d = Some (NFile c)) /\ is_ignored n = false /\
     (split_pair n = [s; t] \/ split_pair n = [t; s])).

(** The histogram [distributions[m]], if present, and its total count. *)
Definition metric_hist (ov : Overview) (m : string) : option (list Z) :=
  match distributions ov with
  | Some d => dict_lookup m d
  | None => None
  end.

Definition hist_total (ov : Overview) (m : string) : option Z :=
  option_map (fold_right Z.add 0) (metric_hist ov m).

(** The reading of C9 in the specification: an entry that is unlinked is
    never written first. *)
Definition deletes_without_overwrite (log : list Event) : Prop :=
  forall name c, In (EUnlink name) log -> ~ In (EWrite name c) log.

(** ** Concrete inputs for the examples *)

Definition res_default {A} (r : res A) (d : A) : A :=
  match r with
  | Ok a => a
  | Err _ => d
  end.

Definition ex_hist : list Z := repeat 1 100.

Definition ex_descriptor (a b : string) : Descriptor :=
  {| first_submission := a; second_submission := b; descriptor_rest := "{}" |}.

Definition ex_index : dict (dict string) :=
  [("one", [("two", "one-two.json"); ("three", "one-three.json")]);
   ("two", [("one", "one-two.json")]);
   ("three", [("one", "one-three.json")])].

Definition ex_overview_with (ix : dict (dict string)) : Overview :=
  {| distributions := Some [("MAX", ex_hist); ("AVG", ex_hist); ("MIN", ex_hist)];
     submission_ids_to_comparison_file_name := Some ix;
     top_comparisons := Some [ex_descriptor "two" "one"; ex_descriptor "one" "three"];
     overview_rest := "{}" |}.

Definition ex_overview : Overview := ex_overview_with ex_index.

(** The index already pruned in one direction: [one -> two] is missing. *)
Definition ex_overview_pruned : Overview :=
  ex_overview_with
    [("one", [("three", "one-three.json")]);
     ("two", [("one", "one-two.json")]);
     ("three", [("one", "one-three.json")])].

(** The floats [0.755] ([6800435437329449 * 2^-53]) and [1.0]. *)
Definition ex_755 : float := Finite 6800435437329449 (-53).
Definition ex_one : float := Finite 1 0.

(** The float printed as [0.09999999999999999]: [7205759403792793 * 2^-56]. *)
Definition ex_below_tenth : float := Finite 7205759403792793 (-56).

Definition ex_record : Comparison :=
  {| cmp_id1 := Some "one"; cmp_id2 := Some "two";
     similarities := Some [("MAX", ex_755); ("AVG", ex_one)];
     matches := Some ["{match}"];
     first_similarity := Some ex_one; second_similarity := Some ex_one |}.

Definition ex_record_below_tenth : Comparison :=
  {| cmp_id1 := Some "one"; cmp_id2 := Some "two";
     similarities := Some [("MAX", ex_below_tenth); ("AVG", ex_one)];
     matches := Some ["{match}"];
     first_similarity := Some ex_one; second_similarity := Some ex_one |}.

Definition ex_load_overview (s : string) : res Overview :=
  if String.eqb s "{overview}" then Ok ex_overview else Err JSONDecodeError.
Definition ex_load_overview_pruned (s : string) : res Overview :=
  if String.eqb s "{overview}" then Ok ex_overview_pruned else Err JSONDecodeError.
Definition ex_dumps_overview (ov : Overview) : string := "{overview, rewritten}".
Definition ex_load_comparison (s : string) : res Comparison :=
  if String.eqb s "{one-two}" then Ok ex_record else Err JSONDecodeError.
Definition ex_load_comparison_below_tenth (s : string) : res Comparison :=
  if String.eqb s "{one-two}" then Ok ex_record_below_tenth else Err JSONDecodeError.
Definition ex_dumps_comparison (c : Comparison) : string := "{zeroed}".

Definition ex_submission (i a : string) : PyPlagSubmission :=
  {| id := i; lang := "python3"; author := a; files := [("main.py", "print(1)")] |}.

Definition ex_submissions : list PyPlagSubmission :=
  [ex_submission "one" "t1"; ex_submission "two" "t1"; ex_submission "three" "t2"].

Definition ex_archive : Dir :=
  [("overview.json", NFile "{overview}"); ("README.txt", NFile "readme");
   ("one-two.json", NFile "{one-two}"); ("one-three.json", NFile "{one-three}");
   ("files", NDir [("one/main.py", "print(1)")])].

(** An archive with an entry whose name splits into three ids. *)
Definition ex_archive_bad_name : Dir :=
  [("overview.json", NFile "{overview}"); ("one-two-three.json", NFile "{}")].

Definition ex_settings : PyPlagSettings :=
  {| java_cmd := "java"; jplag_jar := "./dependencies/jplag.jar";
     report_dir := ["."; "reports"]; clustering := true;
     filter_runs_by_author := true; ignore_unsupported_language := false |}.

Definition ex_pyplag : PyPlag :=
  {| settings := ex_settings; supported_languages := default_supported_languages |}.

Definition ex_stage (subs : list PyPlagSubmission) : res string := Ok "/tmp/pyplag-subs-0".

(** A detector run that fails and writes nothing. *)
Definition ex_jplag_failing (args : list string) (fs : dict Dir) : CompletedProcess * dict Dir :=
  ({| returncode := 1; proc_stdout := ""; proc_stderr := "error: no submissions" |}, fs).

(** A detector run that succeeds and writes the report archive, and one that
    exits with status 0 without writing it. *)
Definition ex_jplag_ok (args : list string) (fs : dict Dir) : CompletedProcess * dict Dir :=
  ({| returncode := 0; proc_stdout := "ok"; proc_stderr := "" |},
   dict_setitem "./reports/python3.jplag" ex_archive fs).
Definition ex_jplag_silent (args : list string) (fs : dict Dir) : CompletedProcess * dict Dir :=
  ({| returncode := 0; proc_stdout := ""; proc_stderr := "" |}, fs).

Definition ex_pyplag_unfiltered : PyPlag :=
  {| settings := {| java_cmd := "java"; jplag_jar := "./dependencies/jplag.jar";
                    report_dir := ["."; "reports"]; clustering := true;
                    filter_runs_by_author := false; ignore_unsupported_language := false |};
     supported_languages := default_supported_languages |}.

Definition ex_tree : Tree :=
  [(["."; "reports"], KDir); (["."; "reports"; "python3.jplag"], KFile);
   (["."; "reports"; "old"], KDir); (["."; "reports"; "old"; "x.jplag"], KFile);
   (["."; "src"], KDir); (["."; "src"; "main.py"], KFile)].

Section PostProcess.
#[local] Set Default Proof Using "Type".

(** [json.load] / [json.dumps] of the standard library, seen through the
    typed views above. *)
Variable load_overview : string -> res Overview.
Variable dumps_overview : Overview -> string.
Variable load_comparison : string -> res Comparison.
Variable dumps_comparison : Comparison -> string.

(** Constant defined in JPlag *)
Definition SIMILARITY_DISTRIBUTION_SIZE : Z := 100.

(** The record written over a collision file before it is unlinked. *)
Definition zeroed_record (submission_id1 submission_id2 : string) : Comparison :=
  {| cmp_id1 := Some submission_id1;
     cmp_id2 := Some submission_id2;
     similarities := Some [("MAX", Finite 0 0); ("AVG", Finite 0 0)];
     matches := Some [];
     first_similarity := Some (Finite 0 0);
     second_similarity := Some (Finite 0 0) |}.

(** [del overview["submission_ids_to_comparison_file_name"][a][b]] *)
Definition del_index_entry (a b : string) (ov : Overview) : res Overview :=
  ix <- opt_getitem (submission_ids_to_comparison_file_name ov) ;;
  row <- dict_getitem a ix ;;
  row' <- dict_delitem b row ;;
  Ok (with_index (dict_setitem a row' ix) ov).

(** The [try: del ...; del ... except KeyError: pass] block: the dicts are
    mutated in place, so a KeyError raised by the second [del] keeps the
    effect of the first one. *)
Definition try_del_both (submission_id1 submission_id2 : string) (ov : Overview)
  : res Overview :=
  match del_index_entry submission_id1 submission_id2 ov with
  | Ok ov1 =>
      match del_index_entry submission_id2 submission_id1 ov1 with
      | Ok ov2 => Ok ov2
      | Err KeyError => Ok ov1
      | Err e => Err e
      end
  | Err KeyError => Ok ov
  | Err e => Err e
  end.

(** The bucket index expression
    [min(int(file_data["similarities"][metric] * SIZE), SIZE - 1)]. *)
Definition bucket_of (v : float) : res Z :=
  i <- py_int (float_mul v (float_of_int SIMILARITY_DISTRIBUTION_SIZE)) ;;
  Ok (Z.min i (SIMILARITY_DISTRIBUTION_SIZE - 1)).

(** [overview["distributions"][metric][bucket] -= 1] *)
Definition correct_metric (file_data : Comparison) (ov : Overview) (metric : string)
  : res Overview :=
  dists <- opt_getitem (distributions ov) ;;
  hist <- dict_getitem metric dists ;;
  sims <- opt_getitem (similarities file_data) ;;
  v <- dict_getitem metric sims ;;
  b <- bucket_of v ;;
  i <- py_index (length hist) b ;;
  Ok (with_distributions
        (dict_setitem metric (list_update hist i (fun x => x - 1)) dists) ov).

Fixpoint fold_res {A B} (f : A -> B -> res A) (a : A) (l : list B) : res A :=
  match l with
  | [] => Ok a
  | b :: l' => a' <- f a b ;; fold_res f a' l'
  end.

Definition filter_comparison (submission_id1 submission_id2 : string) (comp : Descriptor)
  : bool :=
  negb ((String.eqb (first_submission comp) submission_id1
         && String.eqb (second_submission comp) submission_id2)
        || (String.eqb (first_submission comp) submission_id2
            && String.eqb (second_submission comp) submission_id1)).

(** The body of [if submission1.author == submission2.author:]. *)
Definition remove_collision (submission_id1 submission_id2 name : string) (st : State)
  : res State :=
  c <- read_file name (st_dir st) ;;
  file_data <- load_comparison c ;;
  (* file.write(json.dumps({...})) appends at the end-of-read position *)
  let c' := c ++ dumps_comparison (zeroed_record submission_id1 submission_id2) in
  let st1 := log_event (EWrite name c')
               (set_dir (dict_setitem name (NFile c') (st_dir st)) st) in
  (* file_path.unlink() *)
  let st2 := log_event (EUnlink name) (set_dir (dict_remove name (st_dir st1)) st1) in
  ov1 <- try_del_both submission_id1 submission_id2 (st_overview st2) ;;
  ov2 <- fold_res (correct_metric file_data) ov1 ["MAX"; "AVG"] ;;
  tops <- opt_getitem (top_comparisons ov2) ;;
  let ov3 := with_top (filter (filter_comparison submission_id1 submission_id2) tops) ov2 in
  Ok (set_overview ov3 st2).

(** One iteration of [for file_path in tmpfile.iterdir():]. *)
Definition process_entry (submissions : dict PyPlagSubmission) (st : State) (name : string)
  : res State :=
  if is_ignored name then Ok st else
  match split_pair name with
  | [submission_id1; submission_id2] =>
      submission1 <- dict_getitem submission_id1 submissions ;;
      submission2 <- dict_getitem submission_id2 submissions ;;
      if String.eqb (author submission1) (author submission2)
      then remove_collision submission_id1 submission_id2 name st
      else Ok st
  | _ => Err ValueError
  end.

Definition init_state (archive : Dir) (overview : Overview) : State :=
  {| st_dir := archive; st_overview := overview; st_log := [] |}.

(** The body of [with TemporaryDirectory(...)] up to the zip: the final
    scratch directory is [st_dir], which the zip loop writes out
    ([zip_tree]). *)
Definition minimize_archive (subs : list PyPlagSubmission) (archive : Dir) : res State :=
  let submissions := submissions_dict subs in
  c <- read_file "overview.json" archive ;;
  overview <- load_overview c ;;
  st <- fold_res (process_entry submissions) (init_state archive overview) (map fst archive) ;;
  Ok (set_dir (dict_setitem "overview.json" (NFile (dumps_overview (st_overview st)))
                (st_dir st)) st).

(** [report.with_stem(f"{report.stem}.min")] *)
Definition suffix (name : string) : string :=
  match rfind "."%char name with
  | Some i =>
      if (0 <? i)%nat && (i <? String.length name - 1)%nat
      then substring i (String.length name - i) name else ""
  | None => ""
  end.

Definition with_min_stem (report : string) : string :=
  match rfind "/"%char report with
  | Some i =>
      let dir := substring 0 (S i) report in
      let name := substring (S i) (String.length report - S i) report in
      dir ++ stem name ++ ".min" ++ suffix name
  | None => stem report ++ ".min" ++ suffix report
  end.

(** The archive written by the loop over [tmpfile.walk()], which calls
    [zip_file.write] for each name of [filenames] only: a directory holding
    no file leaves no trace in the archive. *)
Definition zip_tree (d : Dir) : Dir :=
  filter (fun kv => match snd kv with
                    | NFile _ => true
                    | NDir [] => false
                    | NDir _ => true
                    end) d.

(** [_post_process_jplag_results]: the archives on disk are a map from path
    to archive; the minimized archive is stored only when every step above
    succeeded. *)
Definition _post_process_jplag_results (fs : dict Dir) (report : string)
  (subs : list PyPlagSubmission) : dict Dir * res (string * string) :=
  let report_min := with_min_stem report in
  match dict_lookup report fs with
  | None => (fs, Err FileNotFoundError)
  | Some archive =>
      match minimize_archive subs archive with
      | Ok st => (dict_setitem report_min (zip_tree (st_dir st)) fs, Ok (report, report_min))
      | Err e => (fs, Err e)
      end
  end.

(** ** [PyPlag.run] *)

(** Writing the submissions to [TemporaryDirectory(prefix="pyplag-subs-")]
    (it fails, e.g., on two submissions with one id) and the detector
    process, which reads its arguments and writes the report archive. *)
Variable stage_submissions : list PyPlagSubmission -> res string.
Variable jplag : list string -> dict Dir -> CompletedProcess * dict Dir.

Definition report_file (s : PyPlagSettings) (lang : string) : string :=
  path_str (report_dir s ++ [lang ++ ".jplag"]).

(** The command line of [subprocess.run]. *)
Definition jplag_args (s : PyPlagSettings) (lang submissions_dir : string) : list string :=
  let extra_args := if clustering s then [] else ["--cluster-skip"] in
  [java_cmd s; "-jar"; jplag_jar s; "-l"; lang; "-M"; "RUN"; "-r"; report_file s lang]
  ++ extra_args ++ [submissions_dir].

Definition run (self : PyPlag) (fs : dict Dir) (lang : string)
  (submissions : list PyPlagSubmission) : dict Dir * res PyPlagReport :=
  let s := settings self in
  if negb (existsb (String.eqb lang) (supported_languages self))
     && negb (ignore_unsupported_language s)
  then (fs, Err (PyPlagException
          ("Attempted to run JPlag on submissions in unsupported language '"
           ++ lang ++ "'")))
  else if (length submissions <=? 1)%nat
  then (fs, Err (PyPlagException "Too few submissions"))
  else match stage_submissions submissions with
  | Err e => (fs, Err e)
  | Ok submissions_dir =>
      let report := report_file s lang in
      let '(result, fs1) := jplag (jplag_args s lang submissions_dir) fs in
      let mk r rm := {| status := returncode result; stdout := proc_stdout result;
                        stderr := proc_stderr result; report_path := r;
                        report_min_path := rm |} in
      if (returncode result =? 0) && filter_runs_by_author s then
        match _post_process_jplag_results fs1 report submissions with
        | (fs2, Ok (r, rm)) => (fs2, Ok (mk r (Some rm)))
        | (fs2, Err e) => (fs2, Err e)
        end
      else (fs1, Ok (mk report None))
  end.


(** ** Lemmas on the runtime model *)

Lemma bind_Ok {A B} (r : res A) (k : A -> res B) b :
  bind r k = Ok b -> exists a, r = Ok a /\ k a = Ok b.
Proof. destruct r; simpl; [eauto | discriminate]. Qed.

Ltac inv_bind H :=
  let a := fresh "a" in let Ha := fresh "Ha" in
  apply bind_Ok in H; destruct H as [a [Ha H]].

Lemma dict_lookup_setitem {V} k k' (v : V) d :
  dict_lookup k' (dict_setitem k v d) = if String.eqb k' k then Some v else dict_lookup k' d.
Proof.
  induction d as [|[k0 v0] d IH]; simpl; [reflexivity|].
  destruct (String.eqb_spec k k0) as [->|Hne]; simpl.
  - destruct (k' =? k0)%string; reflexivity.
  - rewrite IH. destruct (String.eqb_spec k' k0), (String.eqb_spec k' k); congruence.
Qed.

Lemma dict_lookup_remove {V} k k' (d : dict V) :
  dict_lookup k' (dict_remove k d) = if String.eqb k' k then None else dict_lookup k' d.
Proof.
  induction d as [|[k0 v0] d IH]; simpl.
  - destruct (k' =? k)%string; reflexivity.
  - destruct (String.eqb_spec k k0) as [->|Hne]; simpl.
    + rewrite IH. destruct (String.eqb_spec k' k0); reflexivity.
    + rewrite IH. destruct (String.eqb_spec k' k0), (String.eqb_spec k' k); congruence.
Qed.

Lemma in_keys_lookup {V} k (d : dict V) : In k (map fst d) <-> dict_lookup k d <> None.
Proof.
  induction d as [|[k0 v0] d IH]; simpl.
  - split; [intros [] | intros H; exfalso; apply H; reflexivity].
  - destruct (String.eqb_spec k k0) as [->|Hne].
    + split; [discriminate | auto].
    + rewrite <- IH. split; [intros [H|H]; [congruence|auto] | auto].
Qed.

Lemma keys_remove_setitem n m (d : Dir) (w : Node) :
  In m (map fst (dict_remove n (dict_setitem n w d))) <-> In m (map fst d) /\ m <> n.
Proof.
  rewrite !in_keys_lookup, dict_lookup_remove, dict_lookup_setitem.
  destruct (String.eqb_spec m n) as [->|Hne]; split.
  - intros H; exfalso; apply H; reflexivity.
  - intros [_ H]; exfalso; apply H; reflexivity.
  - intros H; split; [exact H | exact Hne].
  - intros [H _]; exact H.
Qed.

Lemma list_update_length {A} (l : list A) n f : length (list_update l n f) = length l.
Proof. revert n; induction l; intros [|n]; simpl; auto. Qed.

Lemma nth_list_update_eq {A} (l : list A) n f d :
  (n < length l)%nat -> nth n (list_update l n f) d = f (nth n l d).
Proof. revert n; induction l; intros [|n]; simpl; intros; try lia; auto with arith. Qed.

Lemma nth_list_update_neq {A} (l : list A) n f d i :
  i <> n -> nth i (list_update l n f) d = nth i l d.
Proof.
  revert n i; induction l; intros [|n] [|i]; simpl; intros; auto; try congruence.
Qed.

Lemma py_index_nonneg len i k :
  0 <= i -> py_index len i = Ok k -> k = Z.to_nat i /\ i < Z.of_nat len.
Proof.
  unfold py_index. intros Hi H.
  destruct ((0 <=? i) && (i <? Z.of_nat len)) eqn:E.
  - inversion H; subst. apply andb_prop in E as [_ E2]. apply Z.ltb_lt in E2. auto.
  - destruct ((- Z.of_nat len <=? i) && (i <? 0)) eqn:E'; [|discriminate].
    apply andb_prop in E' as [_ E3]. apply Z.ltb_lt in E3. lia.
Qed.

Lemma split_on_nonempty c s : split_on c s <> [].
Proof.
  destruct s as [|x r]; simpl; [discriminate|].
  destruct (Ascii.eqb x c); [discriminate|].
  destruct (split_on c r); discriminate.
Qed.

Lemma split_on_app c s1 s2 :
  split_on c (s1 ++ String c s2) = (split_on c s1 ++ split_on c s2)%list.
Proof.
  induction s1 as [|x r IH]; simpl.
  - rewrite Ascii.eqb_refl. reflexivity.
  - rewrite IH. destruct (Ascii.eqb x c); [reflexivity|].
    destruct (split_on c r) eqn:E; [exfalso; exact (split_on_nonempty c r E)|].
    reflexivity.
Qed.

Lemma split_on_single c s w : split_on c s = [w] -> w = s.
Proof.
  revert w; induction s as [|x r IH]; simpl; intros w H.
  - inversion H; auto.
  - destruct (Ascii.eqb x c).
    + inversion H. exfalso; exact (split_on_nonempty c r H2).
    + destruct (split_on c r) as [|w' ws] eqn:E;
        [exfalso; exact (split_on_nonempty c r E)|].
      injection H as Hw Hws. subst ws w. rewrite (IH w' eq_refl). reflexivity.
Qed.

(** A stem of the form [a-b] splits into [[a; b]] when it splits in two. *)
Lemma split_dash_pair a b s1 s2 :
  split_on "-"%char (a ++ "-" ++ b) = [s1; s2] -> s1 = a /\ s2 = b.
Proof.
  simpl. rewrite split_on_app. intros H.
  destruct (split_on "-"%char a) as [|w1 ws1] eqn:Ea;
    [exfalso; exact (split_on_nonempty _ _ Ea)|].
  destruct (split_on "-"%char b) as [|w2 ws2] eqn:Eb;
    [exfalso; exact (split_on_nonempty _ _ Eb)|].
  destruct ws1 as [|w1' ws1]; simpl in H.
  - injection H as -> -> ->. split; eapply split_on_single; eassumption.
  - injection H as _ _ H3. destruct ws1; discriminate.
Qed.

(** ** Lemmas on the filter loop *)

Lemma fold_res_inv {A B} (P : A -> Prop) (f : A -> B -> res A) l a a' :
  (forall x b y, In b l -> f x b = Ok y -> P x -> P y) ->
  P a -> fold_res f a l = Ok a' -> P a'.
Proof.
  revert a. induction l as [|b l IH]; simpl; intros a Hf Ha H.
  - inversion H; subst; auto.
  - apply bind_Ok in H as [y [Hy H]].
    apply (IH y); auto.
    + intros x c z Hc. apply Hf; auto.
    + exact (Hf a b y (or_introl eq_refl) Hy Ha).
Qed.

Lemma fold_res_each {A B} (f : A -> B -> res A) l a a' :
  fold_res f a l = Ok a' -> forall b, In b l -> exists x y, f x b = Ok y.
Proof.
  revert a. induction l as [|c l IH]; simpl; intros a H b Hb; [contradiction|].
  apply bind_Ok in H as [y [Hy H]].
  destruct Hb as [<-|Hb]; eauto.
Qed.

Lemma fold_res_after {A B} (f : A -> B -> res A) (Q : A -> Prop) b l a a' :
  In b l -> (forall x y, f x b = Ok y -> Q y) ->
  (forall x c y, In c l -> f x c = Ok y -> Q x -> Q y) ->
  fold_res f a l = Ok a' -> Q a'.
Proof.
  revert a. induction l as [|c l IH]; simpl; intros a Hb Hq Hp H; [contradiction|].
  apply bind_Ok in H as [y [Hy H]].
  destruct Hb as [<-|Hb].
  - apply (fold_res_inv Q f l y a'); auto.
    + intros x d z Hd. apply Hp; auto.
    + exact (Hq a y Hy).
  - apply (IH y); auto. intros x d z Hd. apply Hp; auto.
Qed.

Lemma del_index_entry_fields a b ov ov' :
  del_index_entry a b ov = Ok ov' ->
  distributions ov' = distributions ov /\ top_comparisons ov' = top_comparisons ov.
Proof.
  unfold del_index_entry. intros H.
  inv_bind H. inv_bind H. inv_bind H. inversion H; subst. auto.
Qed.

Lemma try_del_both_fields a b ov ov' :
  try_del_both a b ov = Ok ov' ->
  distributions ov' = distributions ov /\ top_comparisons ov' = top_comparisons ov.
Proof.
  unfold try_del_both.
  destruct (del_index_entry a b ov) as [ov1|e1] eqn:E1.
  - destruct (del_index_entry b a ov1) as [ov2|e2] eqn:E2.
    + intros H; inversion H; subst.
      apply del_index_entry_fields in E1 as [D1 T1].
      apply del_index_entry_fields in E2 as [D2 T2]. split; congruence.
    + destruct e2; intros H; inversion H; subst.
      apply del_index_entry_fields in E1 as [D1 T1]. auto.
  - destruct e1; intros H; inversion H; subst; auto.
Qed.

Lemma correct_metric_fields fd ov m ov' :
  correct_metric fd ov m = Ok ov' ->
  submission_ids_to_comparison_file_name ov' = submission_ids_to_comparison_file_name ov /\
  top_comparisons ov' = top_comparisons ov.
Proof.
  unfold correct_metric. intros H.
  inv_bind H. inv_bind H. inv_bind H. inv_bind H. inv_bind H. inv_bind H.
  inversion H; subst. auto.
Qed.

Lemma fold_correct_fields fd ov ms ov' :
  fold_res (correct_metric fd) ov ms = Ok ov' ->
  submission_ids_to_comparison_file_name ov' = submission_ids_to_comparison_file_name ov /\
  top_comparisons ov' = top_comparisons ov.
Proof.
  apply (fold_res_inv (fun x =>
    submission_ids_to_comparison_file_name x = submission_ids_to_comparison_file_name ov /\
    top_comparisons x = top_comparisons ov)); auto.
  intros x m y _ Hy [<- <-]. exact (correct_metric_fields _ _ _ _ Hy).
Qed.

Lemma remove_collision_inv a b name st st' :
  remove_collision a b name st = Ok st' ->
  exists c file_data ov1 ov2 tops,
    read_file name (st_dir st) = Ok c /\ load_comparison c = Ok file_data /\
    st_dir st' = dict_remove name
      (dict_setitem name (NFile (c ++ dumps_comparison (zeroed_record a b))) (st_dir st)) /\
    st_log st' = (st_log st ++
      [EWrite name (c ++ dumps_comparison (zeroed_record a b)); EUnlink name])%list /\
    try_del_both a b (st_overview st) = Ok ov1 /\
    fold_res (correct_metric file_data) ov1 ["MAX"; "AVG"] = Ok ov2 /\
    top_comparisons ov2 = Some tops /\
    st_overview st' = with_top (filter (filter_comparison a b) tops) ov2.
Proof.
  unfold remove_collision. intros H.
  apply bind_Ok in H as [c [Hc H]].
  apply bind_Ok in H as [fd [Hfd H]].
  apply bind_Ok in H as [ov1 [H1 H]].
  apply bind_Ok in H as [ov2 [H2 H]].
  apply bind_Ok in H as [tops [Ht H]].
  inversion H; subst; clear H. simpl.
  exists c, fd, ov1, ov2, tops.
  repeat split; auto.
  - rewrite <- app_assoc. reflexivity.
  - destruct (top_comparisons ov2); inversion Ht; auto.
Qed.

Lemma process_entry_collision submissions st name a b :
  collision_entry submissions name a b ->
  process_entry submissions st name = remove_collision a b name st.
Proof.
  intros [Hi [Hs [sa [sb [Ha [Hb Hab]]]]]].
  unfold process_entry. rewrite Hi, Hs. unfold dict_getitem. rewrite Ha, Hb. simpl.
  rewrite Hab, String.eqb_refl. reflexivity.
Qed.

Lemma process_entry_distinct submissions st name a b :
  distinct_author_entry submissions name a b ->
  process_entry submissions st name = Ok st.
Proof.
  intros [Hi [Hs [sa [sb [Ha [Hb Hab]]]]]].
  unfold process_entry. rewrite Hi, Hs. unfold dict_getitem. rewrite Ha, Hb. simpl.
  destruct (String.eqb_spec (author sa) (author sb)); [contradiction | reflexivity].
Qed.

Lemma process_entry_cases submissions st name st' :
  process_entry submissions st name = Ok st' ->
  st' = st \/
  exists a b, collision_entry submissions name a b /\ remove_collision a b name st = Ok st'.
Proof.
  unfold process_entry.
  destruct (is_ignored name) eqn:Hi; [intros H; inversion H; auto|].
  destruct (split_pair name) as [|a [|b [|x l]]] eqn:Hs; try discriminate.
  intros H. unfold dict_getitem, opt_getitem in H.
  destruct (dict_lookup a submissions) as [sa|] eqn:Ha; [|discriminate].
  destruct (dict_lookup b submissions) as [sb|] eqn:Hb; [|discriminate].
  simpl in H. destruct (String.eqb_spec (author sa) (author sb)) as [Hab|Hab].
  - right. exists a, b. split; auto.
    split; [auto | split; [auto | exists sa, sb; auto]].
  - left. inversion H; auto.
Qed.

Lemma process_entry_known submissions st name st' :
  process_entry submissions st name = Ok st' ->
  is_ignored name = true \/
  exists a b sa sb, split_pair name = [a; b] /\
    dict_lookup a submissions = Some sa /\ dict_lookup b submissions = Some sb.
Proof.
  unfold process_entry.
  destruct (is_ignored name) eqn:Hi; [auto|].
  destruct (split_pair name) as [|a [|b [|x l]]] eqn:Hs; try discriminate.
  intros H. unfold dict_getitem, opt_getitem in H.
  destruct (dict_lookup a submissions) as [sa|] eqn:Ha; [|discriminate].
  destruct (dict_lookup b submissions) as [sb|] eqn:Hb; [|discriminate].
  right. exists a, b, sa, sb. auto.
Qed.

(** ** Histogram correction *)

(** Rounding a non-negative [p * 2^e] of at most [100] gives a finite,
    non-negative float. *)
Lemma round_binary64_small p e :
  0 <= p -> (0 <= e -> p * 2 ^ e <= 100) -> (e < 0 -> p <= 100 * 2 ^ (- e)) ->
  exists q e', round_binary64 p e = Finite q e' /\ 0 <= q.
Proof.
  intros Hp Hpos Hneg.
  assert (H0 : p = 0 -> Z.log2 p = 0) by (intros ->; reflexivity).
  assert (HL : p = 0 \/ Z.log2 p + e <= 6).
  { destruct (Z.eq_dec p 0) as [|Hp0]; [left; exact e0|right].
    destruct (Z.leb_spec 0 e) as [He|He].
    - assert (Z.log2 (p * 2 ^ e) <= Z.log2 100)
        by (apply Z.log2_le_mono; exact (Hpos He)).
      rewrite Z.log2_mul_pow2 in H by lia. change (Z.log2 100) with 6 in H. lia.
    - assert (Z.log2 p <= Z.log2 (100 * 2 ^ (- e)))
        by (apply Z.log2_le_mono; exact (Hneg He)).
      rewrite Z.log2_mul_pow2 in H by lia. change (Z.log2 100) with 6 in H. lia. }
  assert (Hsg : 0 <= Z.sgn p) by (apply Z.sgn_nonneg; exact Hp).
  unfold round_binary64. cbv zeta. rewrite (Z.abs_eq p Hp).
  set (k := Z.max (Z.log2 p + 1 - 53) (-1074 - e)).
  destruct (Z.leb_spec k 0) as [Hk|Hk].
  - replace (negb (p =? 0) && (1024 <=? Z.log2 p + e)) with false.
    + eexists _, _; split; [reflexivity|]. apply Z.mul_nonneg_nonneg; lia.
    + destruct (Z.eqb_spec p 0); [reflexivity|]. simpl.
      symmetry. apply Z.leb_gt. lia.
  - set (q := Z.shiftr p k).
    assert (Hq : q = p / 2 ^ k) by (apply Z.shiftr_div_pow2; lia).
    assert (Hq0 : 0 <= q) by (rewrite Hq; apply Z.div_pos; lia).
    assert (Hq53 : q < 2 ^ 53).
    { rewrite Hq. apply Z.div_lt_upper_bound; [lia|].
      rewrite <- Z.pow_add_r by lia.
      destruct (Z.eq_dec p 0) as [->|Hp0].
      - apply Z.pow_pos_nonneg; lia.
      - destruct (Z.log2_spec p) as [_ Hup]; [lia|].
        eapply Z.lt_le_trans; [exact Hup|].
        apply Z.pow_le_mono_r; lia. }
    assert (Hek : e + k <= -46) by lia.
    assert (Hgen : forall q', q <= q' <= q + 1 ->
      exists q0 e0,
        (if negb (q' =? 0) && (1024 <=? Z.log2 q' + (e + k)) then Inf (p <? 0)
         else Finite (Z.sgn p * q') (e + k)) = Finite q0 e0 /\ 0 <= q0).
    { intros q' Hq'.
      replace (negb (q' =? 0) && (1024 <=? Z.log2 q' + (e + k))) with false.
      - eexists _, _; split; [reflexivity|]. apply Z.mul_nonneg_nonneg; lia.
      - destruct (Z.eqb_spec q' 0); [reflexivity|]. simpl. symmetry. apply Z.leb_gt.
        assert (Z.log2 q' <= Z.log2 (2 ^ 53)) by (apply Z.log2_le_mono; lia).
        rewrite Z.log2_pow2 in H by lia. lia. }
    destruct ((Z.shiftl 1 (k - 1) <? p - Z.shiftl q k) ||
              ((p - Z.shiftl q k =? Z.shiftl 1 (k - 1)) && Z.odd q));
      apply Hgen; lia.
Qed.

Lemma float_of_int_100 : float_of_int SIMILARITY_DISTRIBUTION_SIZE = Finite 100 0.
Proof. reflexivity. Qed.

(** A similarity value in [[0, 1]] gets a bucket in [[0, 99]]. *)
Lemma bucket_of_unit m e :
  (0 <= finite_value m e <= 1)%Q ->
  exists b, bucket_of (Finite m e) = Ok b /\ 0 <= b <= 99.
Proof.
  intros [Hlo Hhi].
  assert (Hm : 0 <= m /\ (0 <= e -> m * 2 ^ e <= 1) /\ (e < 0 -> m <= 2 ^ (- e))).
  { unfold finite_value in Hlo, Hhi.
    destruct (Z.leb_spec 0 e) as [He|He].
    - unfold Qle in Hlo, Hhi. simpl in Hlo, Hhi.
      assert (0 < 2 ^ e) by (apply Z.pow_pos_nonneg; lia).
      split; [nia|]. split; [lia | intros; lia].
    - assert (Hp : 0 < 2 ^ (- e)) by (apply Z.pow_pos_nonneg; lia).
      unfold Qle in Hlo, Hhi. simpl in Hlo, Hhi.
      rewrite Z2Pos.id in Hhi by exact Hp. lia. }
  destruct Hm as (Hm0 & Hmpos & Hmneg).
  unfold bucket_of. rewrite float_of_int_100. cbn [float_mul].
  destruct (round_binary64_small (m * 100) (e + 0)) as (q & e' & Hr & Hq).
  - lia.
  - intros He. rewrite Z.add_0_r in He. specialize (Hmpos He).
    replace (m * 100 * 2 ^ (e + 0)) with (m * 2 ^ e * 100) by (rewrite Z.add_0_r; ring).
    lia.
  - intros He. rewrite Z.add_0_r in He. specialize (Hmneg He).
    rewrite Z.add_0_r. lia.
  - rewrite Hr. cbn [py_int bind]. eexists; split; [reflexivity|].
    unfold SIMILARITY_DISTRIBUTION_SIZE.
    destruct (Z.leb_spec 0 e') as [He'|He'].
    + assert (0 <= q * 2 ^ e') by (apply Z.mul_nonneg_nonneg; [lia | apply Z.pow_nonneg; lia]).
      lia.
    + assert (0 <= Z.quot q (2 ^ (- e'))) by (apply Z.quot_pos; [lia | apply Z.pow_pos_nonneg; lia]).
      lia.
Qed.

(** Whatever the value, a bucket that is computed is at most [99]. *)
Lemma bucket_of_le v b : bucket_of v = Ok b -> b <= 99.
Proof.
  unfold bucket_of. intros H. apply bind_Ok in H as [i [_ H]].
  injection H as <-. unfold SIMILARITY_DISTRIBUTION_SIZE. lia.
Qed.

Lemma correct_metric_Ok fd ov m ov' :
  correct_metric fd ov m = Ok ov' ->
  exists dists hist sims v b i,
    distributions ov = Some dists /\ dict_lookup m dists = Some hist /\
    similarities fd = Some sims /\ dict_lookup m sims = Some v /\
    bucket_of v = Ok b /\ py_index (length hist) b = Ok i /\
    distributions ov' = Some (dict_setitem m (list_update hist i (fun x => x - 1)) dists).
Proof.
  unfold correct_metric. intros H.
  apply bind_Ok in H as [dists [Hd H]].
  apply bind_Ok in H as [hist [Hh H]].
  apply bind_Ok in H as [sims [Hs H]].
  apply bind_Ok in H as [v [Hv H]].
  apply bind_Ok in H as [b [Hb H]].
  apply bind_Ok in H as [i [Hi H]].
  inversion H; subst; clear H.
  unfold dict_getitem, opt_getitem in *.
  destruct (distributions ov) eqn:E1; inversion Hd; subst.
  destruct (dict_lookup m dists) eqn:E2; inversion Hh; subst.
  destruct (similarities fd) eqn:E3; inversion Hs; subst.
  destruct (dict_lookup m sims) eqn:E4; inversion Hv; subst.
  exists dists, hist, sims, v, b, i. repeat split; auto.
Qed.

Lemma decremented_at_update hist i b :
  0 <= b -> py_index (length hist) b = Ok i ->
  decremented_at (Some hist) (Some (list_update hist i (fun x => x - 1))) b.
Proof.
  intros Hb Hi.
  apply py_index_nonneg in Hi as [-> Hlt]; [|exact Hb].
  exists hist, (list_update hist (Z.to_nat b) (fun x => x - 1)).
  repeat split; auto; try lia.
  - apply list_update_length.
  - rewrite nth_list_update_eq by lia. reflexivity.
  - intros j Hj. apply nth_list_update_neq. exact Hj.
Qed.

(** C1. When a comparison record is removed as a collision, its [MAX] and
    [AVG] values are the ones read from the entry before it is written;
    [distributions[MAX]] and [distributions[AVG]] are each lowered by
    exactly one at [min(int(value * 100), 99)], with [value * 100] rounded
    in binary64; for values in [[0, 1]] that bucket lies in [[0, 99]], and
    every other metric's histogram is unchanged. *)
Theorem collision_decrements_buckets submissions st name a b st' c file_data sims
    mmax emax mavg eavg :
  collision_entry submissions name a b ->
  read_file name (st_dir st) = Ok c ->
  load_comparison c = Ok file_data ->
  similarities file_data = Some sims ->
  dict_lookup "MAX" sims = Some (Finite mmax emax) ->
  dict_lookup "AVG" sims = Some (Finite mavg eavg) ->
  (0 <= finite_value mmax emax <= 1)%Q -> (0 <= finite_value mavg eavg <= 1)%Q ->
  process_entry submissions st name = Ok st' ->
  exists bmax bavg dists dists',
    bucket_of (Finite mmax emax) = Ok bmax /\ 0 <= bmax <= 99 /\
    bucket_of (Finite mavg eavg) = Ok bavg /\ 0 <= bavg <= 99 /\
    distributions (st_overview st) = Some dists /\
    distributions (st_overview st') = Some dists' /\
    decremented_at (dict_lookup "MAX" dists) (dict_lookup "MAX" dists') bmax /\
    decremented_at (dict_lookup "AVG" dists) (dict_lookup "AVG" dists') bavg /\
    (forall m, m <> "MAX" -> m <> "AVG" -> dict_lookup m dists' = dict_lookup m dists).
Proof.
  intros Hcol Hc Hfd Hs Hmax Havg Hvmax Hvavg H.
  rewrite (process_entry_collision _ _ _ _ _ Hcol) in H.
  apply remove_collision_inv in H
    as (c' & fd & ov1 & ov2 & tops & Hc' & Hfd' & _ & _ & Hdel & Hfold & _ & Hov).
  rewrite Hc in Hc'. injection Hc' as <-. rewrite Hfd in Hfd'. injection Hfd' as <-.
  simpl in Hfold.
  apply bind_Ok in Hfold as [ovm [Hm Hfold]].
  apply bind_Ok in Hfold as [ova [Ha Hfold]]. simpl in Hfold. injection Hfold as <-.
  apply correct_metric_Ok in Hm
    as (d1 & h1 & s1 & v1 & b1 & i1 & Hd1 & Hh1 & Hs1 & Hv1 & Hb1 & Hi1 & Hdm).
  apply correct_metric_Ok in Ha
    as (d2 & h2 & s2 & v2 & b2 & i2 & Hd2 & Hh2 & Hs2 & Hv2 & Hb2 & Hi2 & Hda).
  rewrite Hs in Hs1; injection Hs1 as <-. rewrite Hs in Hs2; injection Hs2 as <-.
  rewrite Hmax in Hv1; injection Hv1 as <-. rewrite Havg in Hv2; injection Hv2 as <-.
  rewrite Hdm in Hd2; injection Hd2 as <-.
  destruct (bucket_of_unit mmax emax Hvmax) as (bm & Hbm & Hbm_range).
  destruct (bucket_of_unit mavg eavg Hvavg) as (ba & Hba & Hba_range).
  rewrite Hbm in Hb1; injection Hb1 as <-. rewrite Hba in Hb2; injection Hb2 as <-.
  apply try_del_both_fields in Hdel as [Hdd _].
  rewrite dict_lookup_setitem in Hh2. simpl in Hh2.
  exists bm, ba, d1, (dict_setitem "AVG" (list_update h2 i2 (fun x => x - 1))
           (dict_setitem "MAX" (list_update h1 i1 (fun x => x - 1)) d1)).
  split; [exact Hbm|]. split; [exact Hbm_range|].
  split; [exact Hba|]. split; [exact Hba_range|].
  rewrite Hov. simpl.
  split; [congruence|]. split; [exact Hda|].
  rewrite !dict_lookup_setitem. simpl.
  split; [rewrite Hh1; apply decremented_at_update; [lia | exact Hi1]|].
  split; [rewrite Hh2; apply decremented_at_update; [lia | exact Hi2]|].
  intros m Hm1 Hm2.
  apply String.eqb_neq in Hm1. apply String.eqb_neq in Hm2.
  rewrite !dict_lookup_setitem, Hm1, Hm2. reflexivity.
Qed.

(** ** Pruning of the pair-wise index *)

Lemma del_index_entry_lookup a b ov ov' :
  del_index_entry a b ov = Ok ov' ->
  forall s t, index_lookup ov' s t =
    if String.eqb s a && String.eqb t b then None else index_lookup ov s t.
Proof.
  unfold del_index_entry. intros H.
  apply bind_Ok in H as [ix [Hix H]].
  apply bind_Ok in H as [row [Hrow H]].
  apply bind_Ok in H as [row' [Hrow' H]].
  inversion H; subst; clear H. intros s t.
  unfold opt_getitem, dict_getitem, dict_delitem in *.
  destruct (submission_ids_to_comparison_file_name ov) eqn:E; inversion Hix; subst.
  destruct (dict_lookup a ix) eqn:Ea; inversion Hrow; subst.
  destruct (dict_lookup b row) eqn:Eb; inversion Hrow'; subst.
  unfold index_lookup. simpl. rewrite E, dict_lookup_setitem.
  destruct (String.eqb_spec s a) as [->|]; simpl.
  - rewrite Ea, dict_lookup_remove. reflexivity.
  - reflexivity.
Qed.

Lemma del_index_entry_err a b ov e :
  del_index_entry a b ov = Err e -> e = KeyError /\ index_lookup ov a b = None.
Proof.
  unfold del_index_entry, index_lookup, opt_getitem, dict_getitem, dict_delitem.
  destruct (submission_ids_to_comparison_file_name ov) as [ix|]; simpl;
    [|intros H; inversion H; auto].
  destruct (dict_lookup a ix) as [row|]; simpl; [|intros H; inversion H; auto].
  destruct (dict_lookup b row); simpl; intros H; inversion H; auto.
Qed.

Lemma try_del_both_lookup a b ov ov' :
  (forall s t, index_lookup ov s t = index_lookup ov t s) ->
  try_del_both a b ov = Ok ov' ->
  forall s t, index_lookup ov' s t =
    if (String.eqb s a && String.eqb t b) || (String.eqb s b && String.eqb t a)
    then None else index_lookup ov s t.
Proof.
  intros Hsym. unfold try_del_both.
  destruct (del_index_entry a b ov) as [ov1|e1] eqn:E1.
  - pose proof (del_index_entry_lookup _ _ _ _ E1) as L1.
    destruct (del_index_entry b a ov1) as [ov2|e2] eqn:E2.
    + pose proof (del_index_entry_lookup _ _ _ _ E2) as L2.
      intros H; inversion H; subst; clear H. intros s t.
      rewrite L2, L1.
      destruct (String.eqb s a), (String.eqb t b), (String.eqb s b), (String.eqb t a);
        reflexivity.
    + apply del_index_entry_err in E2 as [-> Hba].
      intros H; inversion H; subst; clear H. intros s t.
      destruct (String.eqb s b && String.eqb t a) eqn:Eba.
      * apply andb_prop in Eba as [E3 E4].
        apply String.eqb_eq in E3. apply String.eqb_eq in E4. subst s t.
        rewrite orb_true_r. exact Hba.
      * rewrite orb_false_r. apply L1.
  - apply del_index_entry_err in E1 as [-> Hab].
    intros H; inversion H; subst; clear H. intros s t.
    destruct (String.eqb s a && String.eqb t b) eqn:Eab.
    + apply andb_prop in Eab as [E3 E4].
      apply String.eqb_eq in E3. apply String.eqb_eq in E4. subst s t. exact Hab.
    + simpl. destruct (String.eqb s b && String.eqb t a) eqn:Eba; [|reflexivity].
      apply andb_prop in Eba as [E3 E4].
      apply String.eqb_eq in E3. apply String.eqb_eq in E4. subst s t.
      rewrite Hsym. exact Hab.
Qed.

Lemma index_lookup_same ov ov' :
  submission_ids_to_comparison_file_name ov' = submission_ids_to_comparison_file_name ov ->
  forall s t, index_lookup ov' s t = index_lookup ov s t.
Proof. intros E s t. unfold index_lookup. rewrite E. reflexivity. Qed.

Lemma remove_collision_index a b name st st' :
  remove_collision a b name st = Ok st' ->
  (forall s t, index_lookup (st_overview st) s t = index_lookup (st_overview st) t s) ->
  forall s t, index_lookup (st_overview st') s t =
    if (String.eqb s a && String.eqb t b) || (String.eqb s b && String.eqb t a)
    then None else index_lookup (st_overview st) s t.
Proof.
  intros H Hsym s t.
  apply remove_collision_inv in H
    as (c & fd & ov1 & ov2 & tops & _ & _ & _ & _ & Hdel & Hfold & _ & Hov).
  rewrite Hov. unfold with_top.
  rewrite <- (try_del_both_lookup _ _ _ _ Hsym Hdel s t).
  apply fold_correct_fields in Hfold as [Hix _].
  unfold index_lookup at 1. simpl. rewrite Hix. reflexivity.
Qed.

Lemma process_entry_consistent submissions st name st' :
  process_entry submissions st name = Ok st' ->
  index_consistent (st_overview st) (st_dir st) ->
  index_consistent (st_overview st') (st_dir st').
Proof.
  intros H [Hsym Hcons].
  apply process_entry_cases in H as [->|(a & b & Hcol & H)]; [split; auto|].
  pose proof (remove_collision_index _ _ _ _ _ H Hsym) as L.
  destruct Hcol as [Hi [Hs _]].
  apply remove_collision_inv in H as (c & fd & ov1 & ov2 & tops & _ & _ & Hdir & _).
  split.
  - intros s t. rewrite !L, Hsym.
    destruct (String.eqb s a), (String.eqb t b), (String.eqb s b), (String.eqb t a);
      reflexivity.
  - intros s t n Hn. rewrite L in Hn.
    destruct ((String.eqb s a && String.eqb t b) || (String.eqb s b && String.eqb t a))
      eqn:Ec; [discriminate|].
    destruct (Hcons s t n Hn) as [[c' Hc'] [Hin Hsp]].
    assert (n <> name) as Hne.
    { intros ->. rewrite Hs in Hsp.
      destruct Hsp as [Hsp|Hsp]; injection Hsp as <- <-;
        rewrite !String.eqb_refl in Ec; simpl in Ec;
        [discriminate | rewrite orb_true_r in Ec; discriminate]. }
    split; [|split; auto].
    exists c'. rewrite Hdir, dict_lookup_remove, dict_lookup_setitem.
    apply String.eqb_neq in Hne. rewrite Hne. exact Hc'.
Qed.

Lemma minimize_archive_Ok subs archive st :
  minimize_archive subs archive = Ok st ->
  exists c ov stl,
    read_file "overview.json" archive = Ok c /\ load_overview c = Ok ov /\
    fold_res (process_entry (submissions_dict subs)) (init_state archive ov)
      (map fst archive) = Ok stl /\
    st_overview st = st_overview stl /\
    st_dir st = dict_setitem "overview.json" (NFile (dumps_overview (st_overview stl)))
                  (st_dir stl).
Proof.
  unfold minimize_archive. intros H.
  apply bind_Ok in H as [c [Hc H]].
  apply bind_Ok in H as [ov [Hov H]].
  apply bind_Ok in H as [stl [Hl H]].
  inversion H; subst. exists c, ov, stl. repeat split; auto.
Qed.

(** Under the data-model invariant of the input index (symmetric, and
    each referenced name a comparison file of the archive named after the
    pair), after a successful run every pair referenced under a submission
    id in the rewritten [overview.json] names a comparison entry present in
    the output archive. *)
Theorem index_refers_to_surviving_entries subs archive c ov st :
  read_file "overview.json" archive = Ok c -> load_overview c = Ok ov ->
  index_consistent ov archive ->
  minimize_archive subs archive = Ok st ->
  dict_lookup "overview.json" (st_dir st) = Some (NFile (dumps_overview (st_overview st))) /\
  forall s t n, index_lookup (st_overview st) s t = Some n ->
    exists c', dict_lookup n (st_dir st) = Some (NFile c').
Proof.
  intros Hc Hov Hcons H.
  apply minimize_archive_Ok in H as (c0 & ov0 & stl & Hc0 & Hov0 & Hl & Hst & Hdir).
  rewrite Hc in Hc0. injection Hc0 as <-. rewrite Hov in Hov0. injection Hov0 as <-.
  assert (index_consistent (st_overview stl) (st_dir stl)) as [_ Hfin].
  { apply (fold_res_inv (fun x => index_consistent (st_overview x) (st_dir x))
             (process_entry (submissions_dict subs)) (map fst archive)
             (init_state archive ov) stl
             (fun x b y _ Hy Hx => process_entry_consistent _ _ _ _ Hy Hx)
             Hcons Hl). }
  rewrite Hdir, Hst, dict_lookup_setitem. split; [reflexivity|].
  intros s t n Hn.
  destruct (Hfin s t n Hn) as [[c' Hc'] [Hin _]].
  rewrite dict_lookup_setitem.
  destruct (String.eqb_spec n "overview.json") as [->|_]; [discriminate|].
  eauto.
Qed.

(** ** Entries of the scratch directory *)

Lemma keys_setitem {V} k m (v : V) d :
  In m (map fst (dict_setitem k v d)) <-> m = k \/ In m (map fst d).
Proof.
  rewrite !in_keys_lookup, dict_lookup_setitem.
  destruct (String.eqb_spec m k) as [->|Hne]; split.
  - intros _; left; reflexivity.
  - intros _; discriminate.
  - intros H; right; exact H.
  - intros [H|H]; [contradiction|exact H].
Qed.

Lemma fold_setitem_other k (rest : list PyPlagSubmission) d :
  ~ In k (map id rest) ->
  dict_lookup k (fold_left (fun d s => dict_setitem (id s) s d) rest d) = dict_lookup k d.
Proof.
  revert d. induction rest as [|s0 rest IH]; simpl; intros d Hk; [reflexivity|].
  rewrite IH by (intros H; apply Hk; right; exact H). rewrite dict_lookup_setitem.
  destruct (String.eqb_spec k (id s0)) as [E|E];
    [exfalso; apply Hk; left; symmetry; exact E | reflexivity].
Qed.

Lemma submissions_dict_lookup subs s :
  NoDup (map id subs) -> In s subs -> dict_lookup (id s) (submissions_dict subs) = Some s.
Proof.
  unfold submissions_dict. generalize (@nil (string * PyPlagSubmission)).
  induction subs as [|s0 rest IH]; simpl; intros d Hnd Hin; [contradiction|].
  inversion Hnd as [|x l Hnot Hnd']; subst.
  destruct Hin as [<-|Hin].
  - rewrite fold_setitem_other by exact Hnot.
    rewrite dict_lookup_setitem, String.eqb_refl. reflexivity.
  - apply IH; auto.
Qed.

Lemma submissions_dict_absent subs a :
  ~ In a (map id subs) -> dict_lookup a (submissions_dict subs) = None.
Proof. intros H. unfold submissions_dict. rewrite fold_setitem_other by exact H. reflexivity. Qed.

Lemma is_ignored_split n : is_ignored n = true -> length (split_pair n) = 1%nat.
Proof.
  unfold is_ignored, ignore_files. cbn [existsb].
  repeat match goal with
  | |- context [String.eqb n ?x] =>
      destruct (String.eqb_spec n x) as [?|?]; [subst n; intros _; reflexivity|cbn [orb]]
  end.
  intros H; discriminate H.
Qed.

Lemma split_dash_long a b : (2 <= length (split_on "-"%char (a ++ "-" ++ b)))%nat.
Proof.
  simpl. rewrite split_on_app, length_app.
  destruct (split_on "-"%char a) eqn:Ea; [exfalso; exact (split_on_nonempty _ _ Ea)|].
  destruct (split_on "-"%char b) eqn:Eb; [exfalso; exact (split_on_nonempty _ _ Eb)|].
  simpl. lia.
Qed.

Lemma process_entry_keys submissions x c y :
  process_entry submissions x c = Ok y ->
  forall m, In m (map fst (st_dir y)) -> In m (map fst (st_dir x)).
Proof.
  intros H m Hm.
  apply process_entry_cases in H as [->|(a & b & _ & H)]; [exact Hm|].
  apply remove_collision_inv in H as (c0 & fd & ov1 & ov2 & tops & _ & _ & Hdir & _).
  rewrite Hdir, keys_remove_setitem in Hm. exact (proj1 Hm).
Qed.

Lemma remove_collision_unlinked a b name x y :
  remove_collision a b name x = Ok y -> ~ In name (map fst (st_dir y)).
Proof.
  intros H.
  apply remove_collision_inv in H as (c0 & fd & ov1 & ov2 & tops & _ & _ & Hdir & _).
  rewrite Hdir, keys_remove_setitem. intros [_ Hne]. apply Hne. reflexivity.
Qed.

Lemma same_author_entry_removed subs archive st a b sa sb n :
  dict_lookup a (submissions_dict subs) = Some sa ->
  dict_lookup b (submissions_dict subs) = Some sb ->
  author sa = author sb ->
  minimize_archive subs archive = Ok st ->
  stem n = a ++ "-" ++ b -> ~ In n (map fst (st_dir st)).
Proof.
  intros Ha Hb Hab H Hn Hin.
  pose proof (split_dash_long a b) as Hlong.
  apply minimize_archive_Ok in H as (c & ov & stl & _ & _ & Hl & _ & Hdir).
  rewrite Hdir in Hin. apply keys_setitem in Hin as [->|Hin].
  { assert (stem "overview.json" = "overview") as E by reflexivity.
    rewrite E in Hn. rewrite <- Hn in Hlong. simpl in Hlong. lia. }
  assert (In n (map fst archive)) as Harch.
  { apply (fold_res_inv (fun x => forall m, In m (map fst (st_dir x)) -> In m (map fst archive))
             (process_entry (submissions_dict subs)) (map fst archive)
             (init_state archive ov) stl); auto.
    intros x m y _ Hy Hx m' Hm'. exact (Hx m' (process_entry_keys _ _ _ _ Hy m' Hm')). }
  destruct (fold_res_each _ _ _ _ Hl n Harch) as (x & y & Hxy).
  assert (is_ignored n = false) as Hi.
  { destruct (is_ignored n) eqn:Ei; auto.
    apply is_ignored_split in Ei. unfold split_pair in Ei. rewrite Hn in Ei. lia. }
  apply process_entry_known in Hxy as [Hxy|(a' & b' & sa' & sb' & Hs & _)];
    [congruence|].
  pose proof Hs as Hs'. unfold split_pair in Hs'. rewrite Hn in Hs'.
  apply split_dash_pair in Hs' as [-> ->].
  assert (collision_entry (submissions_dict subs) n a b) as Hcol.
  { split; [exact Hi|split; [exact Hs|exists sa, sb; auto]]. }
  refine (fold_res_after (process_entry (submissions_dict subs))
            (fun x => ~ In n (map fst (st_dir x))) n (map fst archive)
            (init_state archive ov) stl Harch _ _ Hl Hin).
  - intros x0 y0 H0. rewrite (process_entry_collision _ _ _ _ _ Hcol) in H0.
    exact (remove_collision_unlinked _ _ _ _ _ H0).
  - intros x0 m y0 _ H0 Hx0 Hy0. exact (Hx0 (process_entry_keys _ _ _ _ H0 n Hy0)).
Qed.

(** C4. For two submissions with the same author (ids unique, as the
    staging step requires), a successful run leaves no entry named
    [A-B] or [B-A] (any extension) in the output archive: the collision
    entry has been deleted from the scratch directory. *)
Theorem same_author_entries_removed subs archive st sa sb :
  NoDup (map id subs) -> In sa subs -> In sb subs -> author sa = author sb ->
  minimize_archive subs archive = Ok st ->
  forall n, stem n = id sa ++ "-" ++ id sb \/ stem n = id sb ++ "-" ++ id sa ->
    ~ In n (map fst (st_dir st)).
Proof.
  intros Hnd Ha Hb Hab H n [Hn|Hn].
  - exact (same_author_entry_removed subs archive st (id sa) (id sb) sa sb n
             (submissions_dict_lookup _ _ Hnd Ha) (submissions_dict_lookup _ _ Hnd Hb)
             Hab H Hn).
  - exact (same_author_entry_removed subs archive st (id sb) (id sa) sb sa n
             (submissions_dict_lookup _ _ Hnd Hb) (submissions_dict_lookup _ _ Hnd Ha)
             (eq_sym Hab) H Hn).
Qed.

(** ** The top-comparisons list *)

Lemma filter_comparison_spec a b d :
  filter_comparison a b d = true <-> ~ same_unordered_pair a b d.
Proof.
  clear load_overview dumps_overview load_comparison dumps_comparison stage_submissions jplag.
  unfold filter_comparison, same_unordered_pair.
  destruct (String.eqb_spec (first_submission d) a),
    (String.eqb_spec (second_submission d) b),
    (String.eqb_spec (first_submission d) b),
    (String.eqb_spec (second_submission d) a); simpl; split; intuition (try discriminate).
Qed.

Lemma remove_collision_top a b name x y :
  remove_collision a b name x = Ok y ->
  exists l l', top_comparisons (st_overview x) = Some l /\
    top_comparisons (st_overview y) = Some l' /\
    forall d, In d l' <-> In d l /\ ~ same_unordered_pair a b d.
Proof.
  clear load_overview dumps_overview stage_submissions jplag.
  intros H.
  apply remove_collision_inv in H
    as (c & fd & ov1 & ov2 & tops & _ & _ & _ & _ & Hdel & Hfold & Htop & Hov).
  apply try_del_both_fields in Hdel as [_ T1].
  apply fold_correct_fields in Hfold as [_ T2].
  exists tops, (filter (filter_comparison a b) tops).
  split; [congruence|]. split; [rewrite Hov; reflexivity|].
  intros d. rewrite filter_In, filter_comparison_spec. tauto.
Qed.

Lemma process_entry_top submissions x c y :
  process_entry submissions x c = Ok y ->
  forall l', top_comparisons (st_overview y) = Some l' ->
  exists l, top_comparisons (st_overview x) = Some l /\ incl l' l.
Proof.
  intros H l' Hl'.
  apply process_entry_cases in H as [->|(a & b & _ & H)]; [exists l'; split; [exact Hl' | apply incl_refl]|].
  apply remove_collision_top in H as (l & l'' & Hl & Hl'' & Hiff).
  rewrite Hl' in Hl''. injection Hl'' as <-.
  exists l. split; [exact Hl|]. intros d Hd. apply Hiff in Hd. exact (proj1 Hd).
Qed.

(** C5. Removing a collision entry [<a>-<b>] keeps exactly the descriptors
    of [top_comparisons] whose unordered pair is not [{a, b}], in either
    order of [first_submission] and [second_submission]; after a successful
    run no descriptor names the pair of a removed entry. *)
Theorem top_comparisons_pruned subs archive name a b :
  collision_entry (submissions_dict subs) name a b ->
  (forall st st', process_entry (submissions_dict subs) st name = Ok st' ->
     exists l l', top_comparisons (st_overview st) = Some l /\
       top_comparisons (st_overview st') = Some l' /\
       forall d, In d l' <-> In d l /\ ~ same_unordered_pair a b d) /\
  (forall st, In name (map fst archive) -> minimize_archive subs archive = Ok st ->
     forall l d, top_comparisons (st_overview st) = Some l -> In d l ->
       ~ same_unordered_pair a b d).
Proof.
  intros Hcol. split.
  - intros st st' H. rewrite (process_entry_collision _ _ _ _ _ Hcol) in H.
    exact (remove_collision_top _ _ _ _ _ H).
  - intros st Hin H.
    apply minimize_archive_Ok in H as (c & ov & stl & _ & _ & Hl & Hst & _).
    rewrite Hst.
    refine (fold_res_after (process_entry (submissions_dict subs))
              (fun x => forall l d, top_comparisons (st_overview x) = Some l -> In d l ->
                 ~ same_unordered_pair a b d)
              name (map fst archive) (init_state archive ov) stl Hin _ _ Hl).
    + intros x y H l d Hl' Hd.
      rewrite (process_entry_collision _ _ _ _ _ Hcol) in H.
      apply remove_collision_top in H as (l0 & l1 & _ & Hl1 & Hiff).
      rewrite Hl' in Hl1. injection Hl1 as <-. apply Hiff in Hd. exact (proj2 Hd).
    + intros x m y _ H Hx l d Hl' Hd.
      destruct (process_entry_top _ _ _ _ H l Hl') as (l0 & Hl0 & Hincl).
      exact (Hx l0 d Hl0 (Hincl d Hd)).
Qed.

(** C6. An entry [<a>-<b>] whose submissions have different authors is
    left alone: its iteration changes nothing (directory, distributions,
    index, top list and the record of writes), and a successful run
    outputs it with the same content. *)
Theorem distinct_author_entries_untouched subs archive name a b :
  distinct_author_entry (submissions_dict subs) name a b ->
  (forall st, process_entry (submissions_dict subs) st name = Ok st) /\
  (forall st, minimize_archive subs archive = Ok st ->
     dict_lookup name (st_dir st) = dict_lookup name archive).
Proof.
  intros Hd. split.
  - intros st. exact (process_entry_distinct _ _ _ _ _ Hd).
  - intros st H.
    destruct Hd as [Hi [Hs (sa & sb & Ha & Hb & Hab)]].
    apply minimize_archive_Ok in H as (c & ov & stl & _ & _ & Hl & _ & Hdir).
    rewrite Hdir, dict_lookup_setitem.
    destruct (String.eqb_spec name "overview.json") as [->|_]; [discriminate|].
    apply (fold_res_inv (fun x => dict_lookup name (st_dir x) = dict_lookup name archive)
             (process_entry (submissions_dict subs)) (map fst archive)
             (init_state archive ov) stl); auto.
    intros x m y _ Hy Hx.
    apply process_entry_cases in Hy as [->|(a' & b' & Hcol & Hy)]; [exact Hx|].
    apply remove_collision_inv in Hy as (c0 & fd & ov1 & ov2 & tops & _ & _ & Hdir' & _).
    rewrite Hdir', dict_lookup_remove, dict_lookup_setitem.
    destruct (String.eqb_spec name m) as [->|_]; [|exact Hx].
    exfalso. destruct Hcol as [_ [Hs' (sa' & sb' & Ha' & Hb' & Hab')]].
    rewrite Hs in Hs'. injection Hs' as <- <-. congruence.
Qed.

(** ** Failures, the detector's exit status and the constructor *)

(** C7. Each fatal condition (summary document missing, unreadable or not
    JSON; an entry name that does not split into two ids; an entry naming a
    submission id that no submission has) makes the step fail with the file
    system unchanged: no minimized archive is written and the input archive
    is still there as it was. *)
Theorem fatal_conditions_write_nothing fs report subs archive :
  dict_lookup report fs = Some archive ->
  (exists e, read_file "overview.json" archive = Err e) \/
  (exists c e, read_file "overview.json" archive = Ok c /\ load_overview c = Err e) \/
  (exists name, In name (map fst archive) /\ is_ignored name = false /\
     length (split_pair name) <> 2%nat) \/
  (exists name a b, In name (map fst archive) /\ is_ignored name = false /\
     split_pair name = [a; b] /\ (~ In a (map id subs) \/ ~ In b (map id subs))) ->
  exists e, _post_process_jplag_results fs report subs = (fs, Err e).
Proof.
  intros Hr Hcond. unfold _post_process_jplag_results. cbv zeta. rewrite Hr.
  destruct (minimize_archive subs archive) as [st|e] eqn:Hm; [|eauto].
  exfalso.
  apply minimize_archive_Ok in Hm as (c & ov & stl & Hc & Hov & Hl & _).
  destruct Hcond as [[e He]|[(c' & e & Hc' & He)|[(n & Hin & Hi & Hlen)|
                    (n & a & b & Hin & Hi & Hs & Hab)]]].
  - congruence.
  - rewrite Hc in Hc'. injection Hc' as <-. congruence.
  - destruct (fold_res_each _ _ _ _ Hl n Hin) as (x & y & Hxy).
    apply process_entry_known in Hxy as [Hxy|(a & b & sa & sb & Hs & _)]; [congruence|].
    rewrite Hs in Hlen. apply Hlen. reflexivity.
  - destruct (fold_res_each _ _ _ _ Hl n Hin) as (x & y & Hxy).
    apply process_entry_known in Hxy as [Hxy|(a' & b' & sa & sb & Hs' & Ha & Hb)];
      [congruence|].
    rewrite Hs in Hs'. injection Hs' as <- <-.
    destruct Hab as [Hab|Hab]; apply submissions_dict_absent in Hab; congruence.
Qed.

(** C8. When the detector exits with a nonzero status, [run] does not
    post-process: the file system is the one the detector left, and the
    report carries the detector's status, stdout and stderr with
    [report_min_path = None]. *)
Theorem nonzero_exit_skips_post_processing self fs lang submissions submissions_dir
    result fs1 :
  (existsb (String.eqb lang) (supported_languages self)
   || ignore_unsupported_language (settings self)) = true ->
  (1 < length submissions)%nat ->
  stage_submissions submissions = Ok submissions_dir ->
  jplag (jplag_args (settings self) lang submissions_dir) fs = (result, fs1) ->
  returncode result <> 0 ->
  run self fs lang submissions =
    (fs1, Ok {| status := returncode result; stdout := proc_stdout result;
                stderr := proc_stderr result;
                report_path := report_file (settings self) lang;
                report_min_path := None |}).
Proof.
  intros Hlang Hlen Hstage Hj Hrc. unfold run. cbv zeta.
  assert (negb (existsb (String.eqb lang) (supported_languages self))
          && negb (ignore_unsupported_language (settings self)) = false) as ->.
  { destruct (existsb (String.eqb lang) (supported_languages self)),
      (ignore_unsupported_language (settings self)); simpl in *; congruence. }
  assert ((length submissions <=? 1)%nat = false) as -> by (apply Nat.leb_gt; lia).
  rewrite Hstage, Hj.
  apply Z.eqb_neq in Hrc. rewrite Hrc. reflexivity.
Qed.

(** C10. Constructing [PyPlag] when [settings.report_dir] is an existing
    directory deletes it with everything below it and keeps every other
    path of the file system. *)
Theorem init_removes_report_dir s t :
  path_kind (report_dir s) t = Some KDir ->
  exists t' self, __init__ s t = Ok (t', self) /\ settings self = s /\
    forall e, In e t' <-> In e t /\ is_prefix (report_dir s) (fst e) = false.
Proof.
  intros H. unfold __init__, path_exists, rmtree. rewrite H. simpl.
  eexists; eexists; split; [reflexivity|]. split; [reflexivity|].
  intros e. rewrite filter_In.
  destruct (is_prefix (report_dir s) (fst e)); simpl; split; intros [H1 H2];
    (split; [exact H1 | try reflexivity]); discriminate H2.
Qed.

(** ** Further lemmas: strings and paths *)

Lemma string_length_app s1 s2 :
  String.length (s1 ++ s2) = (String.length s1 + String.length s2)%nat.
Proof. induction s1 as [|c s1 IH]; simpl; [reflexivity|]. rewrite IH. reflexivity. Qed.

Lemma string_app_assoc s1 s2 s3 : s1 ++ s2 ++ s3 = (s1 ++ s2) ++ s3.
Proof. induction s1 as [|c s1 IH]; simpl; [reflexivity|]. rewrite IH. reflexivity. Qed.

Lemma rfind_app c s1 s2 :
  rfind c (s1 ++ s2) =
  match rfind c s2 with
  | Some i => Some (String.length s1 + i)%nat
  | None => rfind c s1
  end.
Proof.
  induction s1 as [|c' s1 IH]; simpl.
  - destruct (rfind c s2); reflexivity.
  - rewrite IH. destruct (rfind c s2); reflexivity.
Qed.

Lemma substring_app_l s1 s2 : substring 0 (String.length s1) (s1 ++ s2) = s1.
Proof.
  induction s1 as [|c s1 IH]; simpl; [destruct s2; reflexivity|]. rewrite IH. reflexivity.
Qed.

Lemma substring_app_r s1 s2 :
  substring (String.length s1) (String.length s2) (s1 ++ s2) = s2.
Proof.
  induction s1 as [|c s1 IH]; simpl; [|exact IH].
  induction s2 as [|c s2 IH]; simpl; [reflexivity|]. rewrite IH. reflexivity.
Qed.

Lemma concat_snoc sep d x :
  d <> [] -> String.concat sep (d ++ [x]) = String.concat sep d ++ sep ++ x.
Proof.
  intros Hd. induction d as [|y d IH]; [contradiction|].
  destruct d as [|z d]; [reflexivity|].
  transitivity (y ++ sep ++ String.concat sep ((z :: d) ++ [x])%list); [reflexivity|].
  rewrite IH by discriminate.
  transitivity ((y ++ sep ++ String.concat sep (z :: d)) ++ sep ++ x); [|reflexivity].
  rewrite !string_app_assoc. reflexivity.
Qed.

Lemma split_on_none c s : rfind c s = None -> split_on c s = [s].
Proof.
  induction s as [|x s IH]; simpl; [reflexivity|].
  destruct (rfind c s); [discriminate|].
  destruct (Ascii.eqb_spec x c) as [E|E]; [discriminate|].
  intros _. rewrite IH by reflexivity. reflexivity.
Qed.

Lemma ascii_eqb_comm a b : Ascii.eqb a b = Ascii.eqb b a.
Proof.
  destruct (Ascii.eqb_spec a b), (Ascii.eqb_spec b a); congruence.
Qed.

(** [name] is [lang ++ ext] with the dot of [ext] the last one: the stem
    and the suffix split it there. *)
Lemma stem_suffix_dot lang ext :
  lang <> "" -> rfind "."%char ext = Some 0%nat -> (1 < String.length ext)%nat ->
  stem (lang ++ ext) = lang /\ suffix (lang ++ ext) = ext.
Proof.
  intros Hl He Hlen. unfold stem, suffix.
  rewrite rfind_app, He, Nat.add_0_r, string_length_app.
  assert ((0 <? String.length lang)%nat = true) as E1.
  { apply Nat.ltb_lt. destruct lang; [contradiction|simpl; lia]. }
  assert ((String.length lang <? String.length lang + String.length ext - 1)%nat = true)
    as E2 by (apply Nat.ltb_lt; lia).
  rewrite E1, E2. simpl andb. cbv iota.
  replace (String.length lang + String.length ext - String.length lang)%nat
    with (String.length ext) by lia.
  split; [apply substring_app_l | apply substring_app_r].
Qed.

Lemma with_min_stem_report lang dir :
  lang <> "" -> rfind "/"%char lang = None ->
  with_min_stem (path_str (dir ++ [lang ++ ".jplag"])) =
  path_str (dir ++ [lang ++ ".min.jplag"]).
Proof.
  intros Hl Hs.
  assert (rfind "/"%char (lang ++ ".jplag") = None) as Hs'.
  { rewrite rfind_app. exact Hs. }
  destruct (stem_suffix_dot lang ".jplag" Hl eq_refl ltac:(simpl; lia)) as [Hst Hsu].
  unfold with_min_stem, path_str.
  destruct dir as [|y d].
  - simpl. rewrite Hs', Hst, Hsu. reflexivity.
  - rewrite !concat_snoc by discriminate.
    rewrite rfind_app. simpl (rfind "/"%char ("/" ++ _)). rewrite Hs'.
    simpl (Ascii.eqb _ _). cbv iota. rewrite Nat.add_0_r.
    set (p := String.concat "/" (y :: d)).
    assert (substring 0 (S (String.length p)) (p ++ "/" ++ lang ++ ".jplag") = p ++ "/")
      as E1.
    { replace (S (String.length p)) with (String.length (p ++ "/")) by
        (rewrite string_length_app; simpl; lia).
      rewrite (string_app_assoc p "/" (lang ++ ".jplag")). apply substring_app_l. }
    assert (substring (S (String.length p))
              (String.length (p ++ "/" ++ lang ++ ".jplag") - S (String.length p))
              (p ++ "/" ++ lang ++ ".jplag") = lang ++ ".jplag") as E2.
    { replace (S (String.length p)) with (String.length (p ++ "/")) by
        (rewrite string_length_app; simpl; lia).
      rewrite (string_app_assoc p "/" (lang ++ ".jplag")).
      rewrite (string_length_app (p ++ "/") (lang ++ ".jplag")), Nat.add_comm, Nat.add_sub.
      apply substring_app_r. }
    rewrite E1, E2, Hst, Hsu. rewrite <- !string_app_assoc. reflexivity.
Qed.

Lemma split_pair_json a b :
  rfind "-"%char a = None -> rfind "-"%char b = None -> rfind "."%char b = None ->
  split_pair (a ++ "-" ++ b ++ ".json") = [a; b].
Proof.
  intros Ha Hb Hbd. unfold split_pair.
  rewrite (string_app_assoc "-" b ".json"), (string_app_assoc a ("-" ++ b) ".json").
  destruct (stem_suffix_dot (a ++ "-" ++ b) ".json") as [-> _];
    [destruct a; discriminate | reflexivity | simpl; lia |].
  change ("-" ++ b) with (String "-"%char b).
  rewrite split_on_app, (split_on_none _ _ Ha), (split_on_none _ _ Hb). reflexivity.
Qed.

Lemma find_app {A} (p : A -> bool) l1 l2 :
  find p (l1 ++ l2) = match find p l1 with Some x => Some x | None => find p l2 end.
Proof. induction l1 as [|x l1 IH]; simpl; [|destruct (p x)]; auto. Qed.

Lemma fold_setitem_find k subs d :
  dict_lookup k (fold_left (fun d s => dict_setitem (id s) s d) subs d) =
  match find (fun s => String.eqb (id s) k) (rev subs) with
  | Some s => Some s
  | None => dict_lookup k d
  end.
Proof.
  revert d. induction subs as [|s0 rest IH]; intros d; simpl; [reflexivity|].
  rewrite IH, find_app. simpl.
  destruct (find (fun s => String.eqb (id s) k) (rev rest)); [reflexivity|].
  rewrite dict_lookup_setitem, String.eqb_sym.
  destruct (String.eqb (id s0) k); reflexivity.
Qed.

Lemma not_in_keys_lookup {V} k (d : dict V) : ~ In k (map fst d) -> dict_lookup k d = None.
Proof.
  intros H. destruct (dict_lookup k d) eqn:E; [|reflexivity].
  exfalso. apply H. apply in_keys_lookup. rewrite E. discriminate.
Qed.

Lemma process_entry_other submissions x c y m :
  process_entry submissions x c = Ok y -> m <> c ->
  dict_lookup m (st_dir y) = dict_lookup m (st_dir x).
Proof.
  intros H Hm. apply process_entry_cases in H as [->|(a & b & _ & H)]; [reflexivity|].
  apply remove_collision_inv in H as (c0 & fd & ov1 & ov2 & tops & _ & _ & Hdir & _).
  rewrite Hdir, dict_lookup_remove, dict_lookup_setitem.
  destruct (String.eqb_spec m c); [contradiction|reflexivity].
Qed.

Lemma process_entry_absent submissions x c y n :
  process_entry submissions x c = Ok y ->
  dict_lookup n (st_dir x) = None -> dict_lookup n (st_dir y) = None.
Proof.
  intros H Hx. apply not_in_keys_lookup. intros Hy.
  apply (process_entry_keys _ _ _ _ H) in Hy. apply in_keys_lookup in Hy. contradiction.
Qed.

Lemma zip_tree_absent k d : dict_lookup k d = None -> dict_lookup k (zip_tree d) = None.
Proof.
  induction d as [|[k' v] d IH]; simpl; intros H; [reflexivity|].
  destruct (String.eqb k k') eqn:E; [discriminate H|].
  destruct v as [c|[|e es]]; simpl; rewrite ?E; exact (IH H).
Qed.

Lemma minimize_archive_fold subs archive st :
  minimize_archive subs archive = Ok st ->
  exists c ov stl,
    read_file "overview.json" archive = Ok c /\ load_overview c = Ok ov /\
    fold_res (process_entry (submissions_dict subs)) (init_state archive ov)
      (map fst archive) = Ok stl /\
    st_log st = st_log stl /\
    st_dir st = dict_setitem "overview.json" (NFile (dumps_overview (st_overview stl)))
                  (st_dir stl).
Proof.
  unfold minimize_archive. intros H.
  apply bind_Ok in H as [c [Hc H]].
  apply bind_Ok in H as [ov [Hov H]].
  apply bind_Ok in H as [stl [Hl H]].
  inversion H; subst. exists c, ov, stl. repeat split; auto.
Qed.

(** A collision entry is absent once the loop over the archive is done. *)
Lemma fold_collision_absent submissions archive ov stl n a b :
  fold_res (process_entry submissions) (init_state archive ov) (map fst archive) = Ok stl ->
  collision_entry submissions n a b -> dict_lookup n (st_dir stl) = None.
Proof.
  intros Hl Hcol.
  destruct (in_dec string_dec n (map fst archive)) as [Hin|Hout].
  - refine (fold_res_after (process_entry submissions)
              (fun x => dict_lookup n (st_dir x) = None) n (map fst archive)
              (init_state archive ov) stl Hin _ _ Hl).
    + intros x y Hy. rewrite (process_entry_collision _ _ _ _ _ Hcol) in Hy.
      exact (not_in_keys_lookup _ _ (remove_collision_unlinked _ _ _ _ _ Hy)).
    + intros x m y _ Hy Hx. exact (process_entry_absent _ _ _ _ _ Hy Hx).
  - refine (fold_res_inv (fun x => dict_lookup n (st_dir x) = None)
              (process_entry submissions) (map fst archive)
              (init_state archive ov) stl _ _ Hl).
    + intros x m y _ Hy Hx. exact (process_entry_absent _ _ _ _ _ Hy Hx).
    + exact (not_in_keys_lookup _ _ Hout).
Qed.

(** A collision entry of the archive leaves, in the log of the loop, a write
    of the zeroed record immediately followed by its unlinking. *)
Lemma fold_collision_logged submissions archive ov stl n a b :
  fold_res (process_entry submissions) (init_state archive ov) (map fst archive) = Ok stl ->
  In n (map fst archive) -> collision_entry submissions n a b ->
  exists l1 l2 c, st_log stl =
    (l1 ++ [EWrite n (c ++ dumps_comparison (zeroed_record a b)); EUnlink n] ++ l2)%list.
Proof.
  intros Hl Hin Hcol.
  refine (fold_res_after (process_entry submissions)
            (fun x => exists l1 l2 c, st_log x =
               (l1 ++ [EWrite n (c ++ dumps_comparison (zeroed_record a b)); EUnlink n] ++ l2)%list)
            n (map fst archive) (init_state archive ov) stl Hin _ _ Hl).
  - intros x y Hy. rewrite (process_entry_collision _ _ _ _ _ Hcol) in Hy.
    apply remove_collision_inv in Hy as (c & _ & _ & _ & _ & _ & _ & _ & Hlog & _).
    exists (st_log x), [], c. rewrite Hlog. reflexivity.
  - intros x m y _ Hy (l1 & l2 & c & Hx).
    apply process_entry_cases in Hy as [->|(a' & b' & _ & Hy)]; [exists l1, l2, c; exact Hx|].
    apply remove_collision_inv in Hy as (c' & _ & _ & _ & _ & _ & _ & _ & Hlog & _).
    exists l1, (l2 ++ [EWrite m (c' ++ dumps_comparison (zeroed_record a' b')); EUnlink m])%list, c.
    rewrite Hlog, Hx, <- !app_assoc. reflexivity.
Qed.

(** C9, as the code has it. In a successful minimization, every collision
    entry [<a>-<b>] of the archive is first written (a zeroed record for the
    pair appended after the content just read) and then unlinked, one right
    after the other in the log of the run; the entry is absent from the
    final scratch directory and from the minimized archive zipped from it. *)
Theorem collision_entry_written_then_unlinked subs archive st name a b :
  minimize_archive subs archive = Ok st ->
  In name (map fst archive) ->
  collision_entry (submissions_dict subs) name a b ->
  (exists l1 l2 c, st_log st =
     (l1 ++ [EWrite name (c ++ dumps_comparison (zeroed_record a b)); EUnlink name] ++ l2)%list) /\
  dict_lookup name (st_dir st) = None /\
  dict_lookup name (zip_tree (st_dir st)) = None.
Proof.
  intros H Hin Hcol.
  apply minimize_archive_fold in H as (c & ov & stl & _ & _ & Hl & Hlog & Hdir).
  assert (Hgone : dict_lookup name (st_dir st) = None).
  { rewrite Hdir, dict_lookup_setitem.
    destruct (String.eqb_spec name "overview.json") as [->|_].
    - destruct Hcol as [Hi _]. discriminate Hi.
    - exact (fold_collision_absent _ _ _ _ _ _ _ Hl Hcol). }
  split; [rewrite Hlog; exact (fold_collision_logged _ _ _ _ _ _ _ Hl Hin Hcol)|].
  split; [exact Hgone | exact (zip_tree_absent _ _ Hgone)].
Qed.

(** ** Properties of the code beyond the specification *)

(** The name of the minimized archive: for a language name without ['/'],
    [report.with_stem(f"{report.stem}.min")] of [<report_dir>/<lang>.jplag]
    is [<report_dir>/<lang>.min.jplag]. *)
Theorem min_report_path s lang :
  lang <> "" -> rfind "/"%char lang = None ->
  with_min_stem (report_file s lang) = path_str (report_dir s ++ [lang ++ ".min.jplag"]).
Proof. intros Hl Hs. exact (with_min_stem_report lang (report_dir s) Hl Hs). Qed.

(** Comparison file names decode to their pair: an entry named
    [<a>-<b>.json], with no ['-'] in [a] or [b] and no ['.'] in [b], is
    split by the loop into the submission ids [a] and [b]. *)
Theorem comparison_name_splits a b :
  rfind "-"%char a = None -> rfind "-"%char b = None -> rfind "."%char b = None ->
  split_pair (a ++ "-" ++ b ++ ".json") = [a; b].
Proof. exact (split_pair_json a b). Qed.

(** [submissions_dict] keeps, for each id, the last submission of the list
    with that id (a later key of a dict comprehension overwrites an earlier
    one); an id no submission has is absent. *)
Theorem submissions_dict_last subs k :
  dict_lookup k (submissions_dict subs) = find (fun s => String.eqb (id s) k) (rev subs).
Proof.
  unfold submissions_dict. rewrite fold_setitem_find.
  destruct (find (fun s => String.eqb (id s) k) (rev subs)); reflexivity.
Qed.

(** The output archive of a successful run, entry by entry: apart from
    [overview.json], which is rewritten, an entry that is a collision
    (a comparison of two submissions with the same author) is absent, and
    every other entry (comparisons of different authors, [README.txt],
    [files], ...) is present exactly when it was in the input, with the same
    content. *)
Theorem minimize_archive_entries subs archive st n :
  minimize_archive subs archive = Ok st -> n <> "overview.json" ->
  ((exists a b, collision_entry (submissions_dict subs) n a b) ->
     dict_lookup n (st_dir st) = None) /\
  (~ (exists a b, collision_entry (submissions_dict subs) n a b) ->
     dict_lookup n (st_dir st) = dict_lookup n archive).
Proof.
  intros H Hn.
  apply minimize_archive_Ok in H as (c & ov & stl & _ & _ & Hl & _ & Hdir).
  rewrite Hdir, dict_lookup_setitem.
  destruct (String.eqb_spec n "overview.json") as [E|_]; [contradiction|].
  split.
  - intros (a & b & Hcol). exact (fold_collision_absent _ _ _ _ _ _ _ Hl Hcol).
  - intros Hnot.
    refine (fold_res_inv (fun x => dict_lookup n (st_dir x) = dict_lookup n archive)
              (process_entry (submissions_dict subs)) (map fst archive)
              (init_state archive ov) stl _ eq_refl Hl).
    intros x m y _ Hy Hx. destruct (String.eqb_spec n m) as [<-|Hne].
    + apply process_entry_cases in Hy as [->|(a & b & Hcol & _)]; [exact Hx|].
      exfalso. apply Hnot. exists a, b. exact Hcol.
    + rewrite (process_entry_other _ _ _ _ _ Hy Hne). exact Hx.
Qed.

Lemma post_process_Ok fs report subs fs2 r rm :
  _post_process_jplag_results fs report subs = (fs2, Ok (r, rm)) ->
  r = report /\ rm = with_min_stem report /\
  exists archive st, dict_lookup report fs = Some archive /\
    minimize_archive subs archive = Ok st /\ fs2 = dict_setitem rm (zip_tree (st_dir st)) fs.
Proof.
  unfold _post_process_jplag_results. cbv zeta.
  destruct (dict_lookup report fs) as [archive|]; [|discriminate].
  destruct (minimize_archive subs archive) as [st|e] eqn:E; [|discriminate].
  intros H. injection H as <- <- <-.
  split; [reflexivity|]. split; [reflexivity|]. exists archive, st. auto.
Qed.

Lemma run_staged self fs lang submissions submissions_dir result fs1 :
  (existsb (String.eqb lang) (supported_languages self)
   || ignore_unsupported_language (settings self)) = true ->
  (1 < length submissions)%nat ->
  stage_submissions submissions = Ok submissions_dir ->
  jplag (jplag_args (settings self) lang submissions_dir) fs = (result, fs1) ->
  run self fs lang submissions =
    let mk r rm := {| status := returncode result; stdout := proc_stdout result;
                      stderr := proc_stderr result; report_path := r;
                      report_min_path := rm |} in
    if (returncode result =? 0) && filter_runs_by_author (settings self) then
      match _post_process_jplag_results fs1 (report_file (settings self) lang) submissions with
      | (fs2, Ok (r, rm)) => (fs2, Ok (mk r (Some rm)))
      | (fs2, Err e) => (fs2, Err e)
      end
    else (fs1, Ok (mk (report_file (settings self) lang) None)).
Proof.
  intros Hl Hn Hs Hj. unfold run. cbv zeta.
  replace (negb (existsb (String.eqb lang) (supported_languages self))
           && negb (ignore_unsupported_language (settings self))) with false
    by (revert Hl; destruct (existsb (String.eqb lang) (supported_languages self)),
          (ignore_unsupported_language (settings self)); simpl; congruence).
  replace (length submissions <=? 1)%nat with false by (symmetry; apply Nat.leb_gt; exact Hn).
  rewrite Hs, Hj. reflexivity.
Qed.

(** [run] returns a report only past its two checks (a supported language,
    or [ignore_unsupported_language]; at least two submissions) and after
    staging the submissions and running the detector; the report carries
    the detector's status and output and [report_path] is
    [<report_dir>/<lang>.jplag], and a minimized archive is reported only for
    a detector exit status of 0 with [filter_runs_by_author] set. *)
Theorem run_success_conditions self fs lang submissions fs' r :
  run self fs lang submissions = (fs', Ok r) ->
  (existsb (String.eqb lang) (supported_languages self)
   || ignore_unsupported_language (settings self)) = true /\
  (2 <= length submissions)%nat /\
  exists submissions_dir result fs1,
    stage_submissions submissions = Ok submissions_dir /\
    jplag (jplag_args (settings self) lang submissions_dir) fs = (result, fs1) /\
    status r = returncode result /\ stdout r = proc_stdout result /\
    stderr r = proc_stderr result /\ report_path r = report_file (settings self) lang /\
    (report_min_path r <> None ->
       returncode result = 0 /\ filter_runs_by_author (settings self) = true).
Proof.
  intros H.
  assert ((existsb (String.eqb lang) (supported_languages self)
           || ignore_unsupported_language (settings self)) = true) as Hl.
  { unfold run in H. cbv zeta in H. revert H.
    destruct (existsb (String.eqb lang) (supported_languages self)),
      (ignore_unsupported_language (settings self)); simpl; intros H;
      [reflexivity | reflexivity | reflexivity | discriminate H]. }
  assert (1 < length submissions)%nat as Hn.
  { unfold run in H. cbv zeta in H.
    destruct (negb (existsb (String.eqb lang) (supported_languages self))
              && negb (ignore_unsupported_language (settings self))); [discriminate H|].
    destruct (length submissions <=? 1)%nat eqn:E; [discriminate H|].
    apply Nat.leb_gt in E. exact E. }
  split; [exact Hl|]. split; [exact Hn|].
  destruct (stage_submissions submissions) as [dir|e] eqn:Hs.
  2:{ unfold run in H. cbv zeta in H.
      destruct (negb (existsb (String.eqb lang) (supported_languages self))
                && negb (ignore_unsupported_language (settings self))); [discriminate H|].
      destruct (length submissions <=? 1)%nat; [discriminate H|].
      rewrite Hs in H. discriminate H. }
  destruct (jplag (jplag_args (settings self) lang dir) fs) as [result fs1] eqn:Hj.
  rewrite (run_staged _ _ _ _ _ _ _ Hl Hn Hs Hj) in H. cbv zeta in H.
  exists dir, result, fs1. split; [reflexivity|]. split; [exact Hj|].
  destruct ((returncode result =? 0) && filter_runs_by_author (settings self)) eqn:Ef.
  - destruct (_post_process_jplag_results fs1 (report_file (settings self) lang) submissions)
      as [fs2 [[rp rm]|e]] eqn:Ep; [|discriminate H].
    apply post_process_Ok in Ep as [-> _].
    injection H as _ <-. simpl.
    apply andb_prop in Ef as [E1 E2]. apply Z.eqb_eq in E1.
    split; [reflexivity|]. split; [reflexivity|]. split; [reflexivity|].
    split; [reflexivity|]. intros _. split; [exact E1 | exact E2].
  - injection H as _ <-. simpl.
    split; [reflexivity|]. split; [reflexivity|]. split; [reflexivity|].
    split; [reflexivity|]. intros Hc. exfalso. apply Hc. reflexivity.
Qed.

(** With [filter_runs_by_author] unset (its default), [run] never
    post-processes: whatever the detector's exit status, the report has
    [report_min_path = None] and the file system is the one the detector
    left. *)
Theorem run_without_filter self fs lang submissions submissions_dir result fs1 :
  filter_runs_by_author (settings self) = false ->
  (existsb (String.eqb lang) (supported_languages self)
   || ignore_unsupported_language (settings self)) = true ->
  (1 < length submissions)%nat ->
  stage_submissions submissions = Ok submissions_dir ->
  jplag (jplag_args (settings self) lang submissions_dir) fs = (result, fs1) ->
  run self fs lang submissions =
    (fs1, Ok {| status := returncode result; stdout := proc_stdout result;
                stderr := proc_stderr result;
                report_path := report_file (settings self) lang;
                report_min_path := None |}).
Proof.
  intros Hf Hl Hn Hs Hj. rewrite (run_staged _ _ _ _ _ _ _ Hl Hn Hs Hj). cbv zeta.
  rewrite Hf, andb_false_r. reflexivity.
Qed.


(** With [filter_runs_by_author] set and a detector exit status of 0, a
    missing report archive or a failing minimization makes [run] raise, and
    no minimized archive is written. *)
Theorem run_post_processing_error self fs lang submissions submissions_dir result fs1 :
  filter_runs_by_author (settings self) = true ->
  (existsb (String.eqb lang) (supported_languages self)
   || ignore_unsupported_language (settings self)) = true ->
  (1 < length submissions)%nat ->
  stage_submissions submissions = Ok submissions_dir ->
  jplag (jplag_args (settings self) lang submissions_dir) fs = (result, fs1) ->
  returncode result = 0 ->
  (dict_lookup (report_file (settings self) lang) fs1 = None \/
   exists archive e, dict_lookup (report_file (settings self) lang) fs1 = Some archive /\
     minimize_archive submissions archive = Err e) ->
  exists e, run self fs lang submissions = (fs1, Err e).
Proof.
  intros Hf Hl Hn Hs Hj Hr Hcase.
  rewrite (run_staged _ _ _ _ _ _ _ Hl Hn Hs Hj). cbv zeta.
  rewrite Hr, Hf. simpl andb. cbv iota.
  unfold _post_process_jplag_results. cbv zeta.
  destruct Hcase as [Hnone | (archive & e & Ha & Hm)].
  - rewrite Hnone. exists FileNotFoundError. reflexivity.
  - rewrite Ha, Hm. exists e. reflexivity.
Qed.

(** The constructor when [report_dir] is not a directory: when nothing is
    there the file system is untouched, and when a file is there
    [shutil.rmtree] raises [NotADirectoryError] and no [PyPlag] is built. *)
Theorem init_report_dir_not_a_directory s t :
  (path_kind (report_dir s) t = None ->
     __init__ s t = Ok (t, {| settings := s; supported_languages := default_supported_languages |})) /\
  (path_kind (report_dir s) t = Some KFile -> __init__ s t = Err NotADirectoryError).
Proof.
  unfold __init__, path_exists, rmtree. split; intros H; rewrite H; reflexivity.
Qed.

(** ** Pruning of the index, without assuming symmetry *)

Lemma try_del_both_shrinks a b ov ov' :
  try_del_both a b ov = Ok ov' ->
  index_lookup ov' a b = None /\
  forall s t, index_lookup ov' s t = None \/ index_lookup ov' s t = index_lookup ov s t.
Proof.
  unfold try_del_both.
  destruct (del_index_entry a b ov) as [ov1|e1] eqn:E1.
  - pose proof (del_index_entry_lookup _ _ _ _ E1) as L1.
    destruct (del_index_entry b a ov1) as [ov2|e2] eqn:E2.
    + pose proof (del_index_entry_lookup _ _ _ _ E2) as L2.
      intros H; injection H as <-. split.
      * rewrite L2, L1, !String.eqb_refl. cbn [andb].
        destruct (String.eqb a b && String.eqb b a); reflexivity.
      * intros s t. rewrite L2, L1.
        destruct (String.eqb s b && String.eqb t a); [left; reflexivity|].
        destruct (String.eqb s a && String.eqb t b); [left; reflexivity | right; reflexivity].
    + destruct e2; cbn; intros H; try discriminate H. injection H as <-. split.
      * rewrite L1, !String.eqb_refl. reflexivity.
      * intros s t. rewrite L1.
        destruct (String.eqb s a && String.eqb t b); [left | right]; reflexivity.
  - apply del_index_entry_err in E1 as [-> Hab]. cbn. intros H; injection H as <-.
    split; [exact Hab | intros s t; right; reflexivity].
Qed.

Lemma remove_collision_shrinks a b name x y :
  remove_collision a b name x = Ok y ->
  index_lookup (st_overview y) a b = None /\
  forall s t, index_lookup (st_overview y) s t = None \/
              index_lookup (st_overview y) s t = index_lookup (st_overview x) s t.
Proof.
  intros H.
  apply remove_collision_inv in H
    as (c & fd & ov1 & ov2 & tops & _ & _ & _ & _ & Hdel & Hfold & _ & Hov).
  apply fold_correct_fields in Hfold as [Hix _].
  assert (forall s t, index_lookup (st_overview y) s t = index_lookup ov1 s t) as E.
  { intros s t. rewrite Hov. unfold with_top, index_lookup. simpl. rewrite Hix. reflexivity. }
  destruct (try_del_both_shrinks _ _ _ _ Hdel) as [Hab Hsh].
  split; [rewrite E; exact Hab|]. intros s t. rewrite !E. apply Hsh.
Qed.

Lemma process_entry_shrinks submissions x c y :
  process_entry submissions x c = Ok y ->
  forall s t, index_lookup (st_overview y) s t = None \/
              index_lookup (st_overview y) s t = index_lookup (st_overview x) s t.
Proof.
  intros H s t.
  apply process_entry_cases in H as [->|(a & b & _ & H)]; [right; reflexivity|].
  exact (proj2 (remove_collision_shrinks _ _ _ _ _ H) s t).
Qed.

Lemma process_entry_sym submissions x c y :
  process_entry submissions x c = Ok y ->
  (forall s t, index_lookup (st_overview x) s t = index_lookup (st_overview x) t s) ->
  forall s t, index_lookup (st_overview y) s t = index_lookup (st_overview y) t s.
Proof.
  intros H Hsym s t.
  apply process_entry_cases in H as [->|(a & b & _ & H)]; [apply Hsym|].
  pose proof (remove_collision_index _ _ _ _ _ H Hsym) as L.
  rewrite !L, Hsym.
  destruct (String.eqb s a), (String.eqb t b), (String.eqb s b), (String.eqb t a);
    reflexivity.
Qed.

(** ** Histogram totals *)

Lemma sum_list_update l i :
  (i < length l)%nat ->
  fold_right Z.add 0 (list_update l i (fun x => x - 1)) = fold_right Z.add 0 l - 1.
Proof.
  revert i. induction l as [|x l IH]; intros [|i]; simpl; intros H; try lia.
  rewrite IH by lia. lia.
Qed.

Lemma py_index_lt len v i : py_index len v = Ok i -> (i < len)%nat.
Proof.
  unfold py_index.
  destruct ((0 <=? v) && (v <? Z.of_nat len)) eqn:E.
  - intros H; injection H as <-. apply andb_prop in E as [E1 E2].
    apply Z.leb_le in E1. apply Z.ltb_lt in E2. lia.
  - destruct ((- Z.of_nat len <=? v) && (v <? 0)) eqn:E'; [|discriminate].
    intros H; injection H as <-. apply andb_prop in E' as [E1 E2].
    apply Z.leb_le in E1. apply Z.ltb_lt in E2. lia.
Qed.

Lemma correct_metric_hist fd ov m ov' :
  correct_metric fd ov m = Ok ov' ->
  hist_total ov' m = option_map (fun t => t - 1) (hist_total ov m) /\
  (forall m', m' <> m -> metric_hist ov' m' = metric_hist ov m').
Proof.
  intros H.
  apply correct_metric_Ok in H as (dists & hist & sims & v & b & i & Hd & Hh & _ & _ & _ & Hi & Hd').
  unfold hist_total, metric_hist. rewrite Hd', Hd. split.
  - rewrite dict_lookup_setitem, String.eqb_refl, Hh. simpl.
    rewrite (sum_list_update hist i (py_index_lt _ _ _ Hi)). reflexivity.
  - intros m' Hne. rewrite dict_lookup_setitem.
    destruct (String.eqb_spec m' m); [contradiction | reflexivity].
Qed.

Lemma fold_correct_hist fd ov ov' :
  fold_res (correct_metric fd) ov ["MAX"; "AVG"] = Ok ov' ->
  (forall m, m = "MAX" \/ m = "AVG" ->
     hist_total ov' m = option_map (fun t => t - 1) (hist_total ov m)) /\
  (forall m, m <> "MAX" -> m <> "AVG" -> metric_hist ov' m = metric_hist ov m).
Proof.
  simpl. intros H.
  apply bind_Ok in H as [ovm [Hm H]].
  apply bind_Ok in H as [ova [Ha H]]. simpl in H. injection H as <-.
  destruct (correct_metric_hist _ _ _ _ Hm) as [Tm Om].
  destruct (correct_metric_hist _ _ _ _ Ha) as [Ta Oa].
  split.
  - intros m [-> | ->].
    + unfold hist_total in *. rewrite (Oa "MAX") by discriminate. exact Tm.
    + rewrite Ta. unfold hist_total in *. rewrite (Om "AVG") by discriminate. reflexivity.
  - intros m H1 H2. rewrite (Oa m H2), (Om m H1). reflexivity.
Qed.

Lemma remove_collision_hist a b name x y :
  remove_collision a b name x = Ok y ->
  (forall m, m = "MAX" \/ m = "AVG" ->
     hist_total (st_overview y) m = option_map (fun t => t - 1) (hist_total (st_overview x) m)) /\
  (forall m, m <> "MAX" -> m <> "AVG" ->
     metric_hist (st_overview y) m = metric_hist (st_overview x) m).
Proof.
  intros H.
  apply remove_collision_inv in H
    as (c & fd & ov1 & ov2 & tops & _ & _ & _ & _ & Hdel & Hfold & _ & Hov).
  apply try_del_both_fields in Hdel as [Hd _].
  assert (forall m, metric_hist (st_overview y) m = metric_hist ov2 m) as E2.
  { intros m. rewrite Hov. reflexivity. }
  assert (forall m, metric_hist ov1 m = metric_hist (st_overview x) m) as E1.
  { intros m. unfold metric_hist. rewrite Hd. reflexivity. }
  destruct (fold_correct_hist _ _ _ Hfold) as [Hmx Hot].
  split.
  - intros m Hm. unfold hist_total in Hmx |- *.
    rewrite E2, (Hmx m Hm), E1. reflexivity.
  - intros m H1 H2. rewrite E2, (Hot m H1 H2), E1. reflexivity.
Qed.

Lemma read_file_in n d c : read_file n d = Ok c -> In n (map fst d).
Proof.
  unfold read_file. intros H. apply in_keys_lookup.
  destruct (dict_lookup n d); [discriminate | discriminate H].
Qed.

Lemma keys_setitem_present {V} k (v : V) d :
  In k (map fst d) -> map fst (dict_setitem k v d) = map fst d.
Proof.
  induction d as [|[k0 v0] d IH]; simpl; [intros []|].
  intros Hk. destruct (String.eqb_spec k k0) as [->|Hne]; simpl; [reflexivity|].
  rewrite IH; [reflexivity|].
  destruct Hk as [E|Hk]; [exfalso; apply Hne; symmetry; exact E | exact Hk].
Qed.

Lemma keys_remove {V} k m (d : dict V) : In m (map fst (dict_remove k d)) -> In m (map fst d).
Proof.
  rewrite !in_keys_lookup, dict_lookup_remove.
  destruct (String.eqb m k); [intros H; exfalso; apply H; reflexivity | exact (fun H => H)].
Qed.

Lemma remove_absent {V} k (d : dict V) : ~ In k (map fst d) -> dict_remove k d = d.
Proof.
  unfold dict_remove. induction d as [|[k0 v0] d IH]; simpl; intros Hk; [reflexivity|].
  destruct (String.eqb_spec k k0) as [->|_].
  - exfalso. apply Hk. left. reflexivity.
  - simpl. rewrite IH; [reflexivity|]. intros H. apply Hk. right. exact H.
Qed.

Lemma remove_nodup {V} k (d : dict V) :
  NoDup (map fst d) -> In k (map fst d) ->
  S (length (dict_remove k d)) = length d /\ NoDup (map fst (dict_remove k d)).
Proof.
  induction d as [|[k0 v0] d IH]; [intros _ []|].
  intros Hnd Hk. simpl in Hnd, Hk. inversion Hnd as [|x l Hnot Hnd']; subst.
  destruct (String.eqb_spec k k0) as [->|Hne].
  - unfold dict_remove. simpl. rewrite String.eqb_refl. simpl.
    fold (dict_remove k0 d). rewrite (remove_absent _ _ Hnot). split; [reflexivity | exact Hnd'].
  - assert (In k (map fst d)) as Hk'.
    { destruct Hk as [E|Hk]; [exfalso; apply Hne; symmetry; exact E | exact Hk]. }
    destruct (IH Hnd' Hk') as [L N].
    unfold dict_remove in *. simpl.
    replace (negb (String.eqb k k0)) with true
      by (destruct (String.eqb_spec k k0); [contradiction | reflexivity]).
    simpl. split; [rewrite L; reflexivity|].
    constructor; [|exact N].
    intros H. apply Hnot. exact (keys_remove k k0 d H).
Qed.

Lemma remove_setitem_length (k : string) (v : Node) (d : Dir) :
  NoDup (map fst d) -> In k (map fst d) ->
  S (length (dict_remove k (dict_setitem k v d))) = length d /\
  NoDup (map fst (dict_remove k (dict_setitem k v d))).
Proof.
  intros Hnd Hin. pose proof (keys_setitem_present k v d Hin) as E.
  destruct (remove_nodup k (dict_setitem k v d)) as [L N];
    [rewrite E; exact Hnd | rewrite E; exact Hin |].
  split; [|exact N].
  rewrite L, <- (length_map fst (dict_setitem k v d)), E, length_map. reflexivity.
Qed.

(** ** Python subscripts of the histograms *)

(** Every reference to a submission pair that survives in the rewritten
    index was already in the input index with the same name (the pass only
    deletes from the index, never adds or renames); for every collision
    entry [<a>-<b>] of the archive, the reference [a -> b] is gone (the
    first [del] either removes it or finds it missing); and a symmetric
    input index stays symmetric. *)
Theorem minimize_archive_index subs archive c ov st :
  read_file "overview.json" archive = Ok c -> load_overview c = Ok ov ->
  minimize_archive subs archive = Ok st ->
  (forall s t, index_lookup (st_overview st) s t = None \/
               index_lookup (st_overview st) s t = index_lookup ov s t) /\
  (forall n a b, In n (map fst archive) -> collision_entry (submissions_dict subs) n a b ->
     index_lookup (st_overview st) a b = None) /\
  ((forall s t, index_lookup ov s t = index_lookup ov t s) ->
     forall s t, index_lookup (st_overview st) s t = index_lookup (st_overview st) t s).
Proof.
  intros Hc Hov H.
  apply minimize_archive_Ok in H as (c0 & ov0 & stl & Hc0 & Hov0 & Hl & Hst & _).
  rewrite Hc in Hc0. injection Hc0 as <-. rewrite Hov in Hov0. injection Hov0 as <-.
  rewrite Hst. split; [|split].
  - refine (fold_res_inv (fun x => forall s t, index_lookup (st_overview x) s t = None \/
              index_lookup (st_overview x) s t = index_lookup ov s t)
              _ _ (init_state archive ov) _ _ (fun s t => or_intror eq_refl) Hl).
    intros x m y _ Hy Hx s t.
    destruct (process_entry_shrinks _ _ _ _ Hy s t) as [E|E]; [left; exact E|].
    rewrite E. apply Hx.
  - intros n a b Hin Hcol.
    refine (fold_res_after _ (fun x => index_lookup (st_overview x) a b = None)
              n _ _ _ Hin _ _ Hl).
    + intros x y Hy. rewrite (process_entry_collision _ _ _ _ _ Hcol) in Hy.
      exact (proj1 (remove_collision_shrinks _ _ _ _ _ Hy)).
    + intros x m y _ Hy Hx.
      destruct (process_entry_shrinks _ _ _ _ Hy a b) as [E|E]; [exact E|].
      rewrite E. exact Hx.
  - intros Hsym.
    exact (fold_res_inv (fun x => forall s t,
             index_lookup (st_overview x) s t = index_lookup (st_overview x) t s)
             _ _ (init_state archive ov) _ (fun x m y _ Hy Hx => process_entry_sym _ _ _ _ Hy Hx) Hsym Hl).
Qed.

(** For an archive without duplicate entries, the histograms of the
    rewritten [overview.json]: [distributions["MAX"]] and
    [distributions["AVG"]] each lose exactly as many counts as entries were
    removed from the archive (one per collision file), and every other
    metric's histogram is unchanged. *)
Theorem minimize_archive_histograms subs archive c ov st :
  NoDup (map fst archive) ->
  read_file "overview.json" archive = Ok c -> load_overview c = Ok ov ->
  minimize_archive subs archive = Ok st ->
  (forall m, m = "MAX" \/ m = "AVG" ->
     hist_total (st_overview st) m =
     option_map (fun t => t - (Z.of_nat (length archive) - Z.of_nat (length (st_dir st))))
       (hist_total ov m)) /\
  (forall m, m <> "MAX" -> m <> "AVG" -> metric_hist (st_overview st) m = metric_hist ov m).
Proof.
  intros Hnd Hc Hov H.
  pose proof (read_file_in _ _ _ Hc) as Hin.
  apply minimize_archive_Ok in H as (c0 & ov0 & stl & Hc0 & Hov0 & Hl & Hst & Hdir).
  rewrite Hc in Hc0. injection Hc0 as <-. rewrite Hov in Hov0. injection Hov0 as <-.
  assert (In "overview.json" (map fst (st_dir stl))) as Hin'.
  { refine (fold_res_inv (fun x => In "overview.json" (map fst (st_dir x)))
              _ _ (init_state archive ov) _ _ Hin Hl).
    intros x m y _ Hy Hx. destruct (String.eqb_spec "overview.json" m) as [<-|Hne].
    - apply process_entry_cases in Hy as [->|(a & b & [Hi _] & _)]; [exact Hx|].
      cbv in Hi. discriminate Hi.
    - apply in_keys_lookup. rewrite (process_entry_other _ _ _ _ _ Hy Hne).
      apply in_keys_lookup. exact Hx. }
  assert (NoDup (map fst (st_dir stl)) /\
    (forall m, m = "MAX" \/ m = "AVG" ->
       hist_total (st_overview stl) m =
       option_map (fun t => t - (Z.of_nat (length archive) - Z.of_nat (length (st_dir stl))))
         (hist_total ov m)) /\
    (forall m, m <> "MAX" -> m <> "AVG" -> metric_hist (st_overview stl) m = metric_hist ov m))
    as (_ & Ht & Ho).
  { refine (fold_res_inv (fun x => NoDup (map fst (st_dir x)) /\
      (forall m, m = "MAX" \/ m = "AVG" ->
         hist_total (st_overview x) m =
         option_map (fun t => t - (Z.of_nat (length archive) - Z.of_nat (length (st_dir x))))
           (hist_total ov m)) /\
      (forall m, m <> "MAX" -> m <> "AVG" -> metric_hist (st_overview x) m = metric_hist ov m))
      _ _ (init_state archive ov) _ _ _ Hl).
    - intros x n y _ Hy (Hndx & Htx & Hox).
      apply process_entry_cases in Hy as [->|(a & b & _ & Hy)];
        [exact (conj Hndx (conj Htx Hox))|].
      destruct (remove_collision_hist _ _ _ _ _ Hy) as [Ty Oy].
      apply remove_collision_inv in Hy as (c1 & fd & ov1 & ov2 & tops & Hc1 & _ & Hdir1 & _).
      destruct (remove_setitem_length n (NFile (c1 ++ dumps_comparison (zeroed_record a b)))
                  (st_dir x) Hndx (read_file_in _ _ _ Hc1)) as [L N].
      rewrite Hdir1. split; [exact N|]. split.
      + intros m Hm. rewrite (Ty m Hm), (Htx m Hm).
        destruct (hist_total ov m); simpl; [f_equal; lia | reflexivity].
      + intros m H1 H2. rewrite (Oy m H1 H2). exact (Hox m H1 H2).
    - change (st_overview (init_state archive ov)) with ov.
      change (st_dir (init_state archive ov)) with archive.
      split; [exact Hnd|]. split; [|intros; reflexivity].
      intros m _. destruct (hist_total ov m); simpl; [f_equal; lia | reflexivity]. }
  assert (length (st_dir st) = length (st_dir stl)) as Hlen.
  { rewrite Hdir, <- (length_map fst (dict_setitem _ _ _)),
      (keys_setitem_present _ _ _ Hin'). apply length_map. }
  rewrite Hst, Hlen. split; [exact Ht | exact Ho].
Qed.

(** The subscript [overview["distributions"][metric][bucket]] of a
    100-bucket histogram with Python's list indexing: a NaN similarity makes
    [int] raise [ValueError] and an infinite one [OverflowError]; a bucket
    [min(int(value * 100), 99)] at or below [-101] makes the subscript raise
    [IndexError]; above that, the bucket lies in [[-100, 99]] and the entry
    decremented is the one at [bucket mod 100], so a negative bucket counts
    from the end of the list. *)
Theorem correct_metric_bucket fd ov m dists hist sims v :
  distributions ov = Some dists -> dict_lookup m dists = Some hist ->
  length hist = 100%nat ->
  similarities fd = Some sims -> dict_lookup m sims = Some v ->
  (v = NaN -> correct_metric fd ov m = Err ValueError) /\
  (forall neg, v = Inf neg -> correct_metric fd ov m = Err OverflowError) /\
  (forall b, bucket_of v = Ok b -> b <= -101 -> correct_metric fd ov m = Err IndexError) /\
  (forall b, bucket_of v = Ok b -> -101 < b ->
     -100 <= b <= 99 /\
     exists i, Z.of_nat i = b mod 100 /\
       correct_metric fd ov m =
         Ok (with_distributions (dict_setitem m (list_update hist i (fun x => x - 1)) dists) ov)).
Proof.
  intros Hd Hh Hlen Hs Hv.
  unfold correct_metric, dict_getitem, opt_getitem.
  rewrite Hd; cbn [bind]. rewrite Hh; cbn [bind]. rewrite Hs; cbn [bind].
  rewrite Hv; cbn [bind]. rewrite Hlen.
  split; [intros ->; reflexivity|].
  split; [intros neg ->; unfold bucket_of; rewrite float_of_int_100; reflexivity|].
  split; intros b Hb Hq; rewrite Hb; cbn [bind]; unfold py_index.
  - destruct (Z.leb_spec 0 b); [lia|]. cbn [andb].
    destruct (Z.leb_spec (- Z.of_nat 100) b); [lia|]. reflexivity.
  - pose proof (bucket_of_le v b Hb) as B. split; [lia|].
    destruct (Z.leb_spec 0 b).
    + destruct (Z.ltb_spec b (Z.of_nat 100)); [|lia]. cbn [andb].
      exists (Z.to_nat b). split; [|reflexivity].
      rewrite Z.mod_small; lia.
    + cbn [andb].
      destruct (Z.leb_spec (- Z.of_nat 100) b); [|lia].
      destruct (Z.ltb_spec b 0); [|lia]. cbn [andb].
      exists (Z.to_nat (Z.of_nat 100 + b)). split; [|reflexivity].
      rewrite Z2Nat.id by lia. apply Z.mod_unique with (-1); lia.
Qed.

End PostProcess.


(** * Examples at concrete inputs *)

Ltac split_string_eqb :=
  repeat (simpl in *; match goal with
    | |- context [String.eqb ?x ?y] => destruct (String.eqb_spec x y); subst
    | H : context [String.eqb ?x ?y] |- _ => destruct (String.eqb_spec x y); subst
    end); try discriminate; try congruence; try reflexivity.

Lemma ex_one_two_collision :
  collision_entry (submissions_dict ex_submissions) "one-two.json" "one" "two".
Proof.
  split; [reflexivity|]. split; [reflexivity|].
  exists (ex_submission "one" "t1"), (ex_submission "two" "t1").
  split; [reflexivity|]. split; reflexivity.
Qed.

Lemma ex_one_three_distinct :
  distinct_author_entry (submissions_dict ex_submissions) "one-three.json" "one" "three".
Proof.
  split; [reflexivity|]. split; [reflexivity|].
  exists (ex_submission "one" "t1"), (ex_submission "three" "t2").
  split; [reflexivity|]. split; [reflexivity|]. discriminate.
Qed.

Lemma ex_index_consistent : index_consistent ex_overview ex_archive.
Proof.
  split.
  - intros s t. unfold index_lookup. split_string_eqb.
  - intros s t n H. unfold index_lookup in H. split_string_eqb;
      (split; [eexists; reflexivity|split; [reflexivity|]]);
      solve [left; reflexivity | right; reflexivity].
Qed.

Lemma collision_decrements_buckets_witness :
  bucket_of ex_755 = Ok 75 /\ bucket_of ex_one = Ok 99 /\
  exists bmax bavg dists dists',
    bucket_of ex_755 = Ok bmax /\ 0 <= bmax <= 99 /\
    bucket_of ex_one = Ok bavg /\ 0 <= bavg <= 99 /\
    distributions (st_overview (init_state ex_archive ex_overview)) = Some dists /\
    distributions (st_overview
      (res_default (process_entry ex_load_comparison ex_dumps_comparison
         (submissions_dict ex_submissions) (init_state ex_archive ex_overview) "one-two.json")
       (init_state ex_archive ex_overview))) = Some dists' /\
    decremented_at (dict_lookup "MAX" dists) (dict_lookup "MAX" dists') bmax /\
    decremented_at (dict_lookup "AVG" dists) (dict_lookup "AVG" dists') bavg /\
    (forall m, m <> "MAX" -> m <> "AVG" -> dict_lookup m dists' = dict_lookup m dists).
Proof.
  split; [vm_compute; reflexivity|]. split; [vm_compute; reflexivity|].
  apply (collision_decrements_buckets ex_load_comparison ex_dumps_comparison
           (submissions_dict ex_submissions) (init_state ex_archive ex_overview)
           "one-two.json" "one" "two" _ "{one-two}" ex_record
           [("MAX", ex_755); ("AVG", ex_one)] 6800435437329449 (-53) 1 0).
  - exact ex_one_two_collision.
  - reflexivity.
  - reflexivity.
  - reflexivity.
  - reflexivity.
  - reflexivity.
  - split; apply Qle_bool_imp_le; vm_compute; reflexivity.
  - split; apply Qle_bool_imp_le; vm_compute; reflexivity.
  - vm_compute; reflexivity.
Defined.

(** C1, against the specification's [floor(value * 100)]: the similarity
    printed [0.09999999999999999] lies in [[0, 1]] and [floor(value * 100)]
    is [9], but [value * 100] rounds to [10.0] in binary64, so the code
    lowers bucket [10] of [distributions[MAX]] and leaves bucket [9] as it
    was. *)
Lemma collision_bucket_above_floor :
  (0 <= finite_value 7205759403792793 (-56) <= 1)%Q /\
  spec_bucket (finite_value 7205759403792793 (-56)) = 9 /\
  bucket_of ex_below_tenth = Ok 10 /\
  exists dists dists',
    distributions (st_overview (init_state ex_archive ex_overview)) = Some dists /\
    distributions (st_overview
      (res_default (process_entry ex_load_comparison_below_tenth ex_dumps_comparison
         (submissions_dict ex_submissions) (init_state ex_archive ex_overview) "one-two.json")
       (init_state ex_archive ex_overview))) = Some dists' /\
    decremented_at (dict_lookup "MAX" dists) (dict_lookup "MAX" dists') 10 /\
    ~ decremented_at (dict_lookup "MAX" dists) (dict_lookup "MAX" dists')
        (spec_bucket (finite_value 7205759403792793 (-56))).
Proof.
  split; [split; apply Qle_bool_imp_le; vm_compute; reflexivity|].
  split; [vm_compute; reflexivity|]. split; [vm_compute; reflexivity|].
  eexists; eexists. split; [reflexivity|]. split; [vm_compute; reflexivity|].
  split.
  - exists ex_hist, (list_update ex_hist 10 (fun x => x - 1)).
    split; [vm_compute; reflexivity|]. split; [vm_compute; reflexivity|].
    split; [apply list_update_length|].
    split; [unfold ex_hist; rewrite repeat_length; simpl; lia|].
    split; [vm_compute; reflexivity|].
    intros i Hi. apply nth_list_update_neq. exact Hi.
  - intros (l & l' & H1 & H2 & _ & _ & H5 & _).
    vm_compute in H1, H2. injection H1 as H1. injection H2 as H2. subst l l'.
    vm_compute in H5. discriminate H5.
Qed.

(** C2, as the code has it. The two [del] statements share one [try]: when
    the direction [one -> two] is already missing from the index, the
    KeyError skips the deletion of [two -> one], so the run succeeds, the
    entry [one-two.json] is gone, and the index still maps [two -> one] to
    it. *)
Theorem collision_leaves_reverse_index_entry :
  collision_entry (submissions_dict ex_submissions) "one-two.json" "one" "two" /\
  index_lookup ex_overview_pruned "one" "two" = None /\
  index_lookup ex_overview_pruned "two" "one" = Some "one-two.json" /\
  minimize_archive ex_load_overview_pruned ex_dumps_overview ex_load_comparison
    ex_dumps_comparison ex_submissions ex_archive =
  Ok (res_default (minimize_archive ex_load_overview_pruned ex_dumps_overview
        ex_load_comparison ex_dumps_comparison ex_submissions ex_archive)
        (init_state ex_archive ex_overview)) /\
  dict_lookup "one-two.json" (st_dir (res_default (minimize_archive ex_load_overview_pruned
     ex_dumps_overview ex_load_comparison ex_dumps_comparison ex_submissions ex_archive)
     (init_state ex_archive ex_overview))) = None /\
  index_lookup (st_overview (res_default (minimize_archive ex_load_overview_pruned
     ex_dumps_overview ex_load_comparison ex_dumps_comparison ex_submissions ex_archive)
     (init_state ex_archive ex_overview))) "two" "one" = Some "one-two.json".
Proof.
  split; [exact ex_one_two_collision|].
  split; [reflexivity|]. split; [reflexivity|].
  split; [vm_compute; reflexivity|].
  split; vm_compute; reflexivity.
Qed.

(** C3, as the code has it. On the input of C2, whose index already lacks
    the direction [one -> two], the minimization succeeds and removes the
    entry [one-two.json], which is absent from the zipped archive, while the
    index written to [overview.json] still maps [two -> one] to it. *)
Theorem dangling_reference_after_run :
  exists st,
    minimize_archive ex_load_overview_pruned ex_dumps_overview ex_load_comparison
      ex_dumps_comparison ex_submissions ex_archive = Ok st /\
    dict_lookup "one-two.json" (zip_tree (st_dir st)) = None /\
    index_lookup (st_overview st) "two" "one" = Some "one-two.json".
Proof.
  exists (res_default (minimize_archive ex_load_overview_pruned ex_dumps_overview
    ex_load_comparison ex_dumps_comparison ex_submissions ex_archive)
    (init_state ex_archive ex_overview)).
  split; [vm_compute; reflexivity|].
  split; vm_compute; reflexivity.
Qed.

Lemma index_refers_to_surviving_entries_witness :
  dict_lookup "overview.json" (st_dir (res_default (minimize_archive ex_load_overview
     ex_dumps_overview ex_load_comparison ex_dumps_comparison ex_submissions ex_archive)
     (init_state ex_archive ex_overview))) =
  Some (NFile (ex_dumps_overview (st_overview (res_default (minimize_archive
     ex_load_overview ex_dumps_overview ex_load_comparison ex_dumps_comparison
     ex_submissions ex_archive) (init_state ex_archive ex_overview))))) /\
  forall s t n, index_lookup (st_overview (res_default (minimize_archive ex_load_overview
     ex_dumps_overview ex_load_comparison ex_dumps_comparison ex_submissions ex_archive)
     (init_state ex_archive ex_overview))) s t = Some n ->
    exists c', dict_lookup n (st_dir (res_default (minimize_archive ex_load_overview
     ex_dumps_overview ex_load_comparison ex_dumps_comparison ex_submissions ex_archive)
     (init_state ex_archive ex_overview))) = Some (NFile c').
Proof.
  apply (index_refers_to_surviving_entries ex_load_overview ex_dumps_overview
           ex_load_comparison ex_dumps_comparison ex_submissions ex_archive
           "{overview}" ex_overview).
  - reflexivity.
  - reflexivity.
  - exact ex_index_consistent.
  - vm_compute; reflexivity.
Defined.

Lemma same_author_entries_removed_witness :
  ~ In "one-two.json" (map fst (st_dir (res_default (minimize_archive ex_load_overview
     ex_dumps_overview ex_load_comparison ex_dumps_comparison ex_submissions ex_archive)
     (init_state ex_archive ex_overview)))).
Proof.
  apply (same_author_entries_removed ex_load_overview ex_dumps_overview
           ex_load_comparison ex_dumps_comparison ex_submissions ex_archive _
           (ex_submission "one" "t1") (ex_submission "two" "t1")).
  - vm_compute. repeat constructor; simpl; intuition discriminate.
  - simpl; auto.
  - simpl; auto.
  - reflexivity.
  - vm_compute; reflexivity.
  - left; reflexivity.
Defined.

Lemma top_comparisons_pruned_witness :
  top_comparisons (st_overview (res_default (minimize_archive ex_load_overview
     ex_dumps_overview ex_load_comparison ex_dumps_comparison ex_submissions ex_archive)
     (init_state ex_archive ex_overview))) = Some [ex_descriptor "one" "three"] /\
  ~ same_unordered_pair "one" "two" (ex_descriptor "one" "three") /\
  (exists l l',
     top_comparisons (st_overview (init_state ex_archive ex_overview)) = Some l /\
     top_comparisons (st_overview (res_default (process_entry ex_load_comparison
       ex_dumps_comparison (submissions_dict ex_submissions)
       (init_state ex_archive ex_overview) "one-two.json")
       (init_state ex_archive ex_overview))) = Some l' /\
     forall d, In d l' <-> In d l /\ ~ same_unordered_pair "one" "two" d).
Proof.
  destruct (top_comparisons_pruned ex_load_overview ex_dumps_overview
              ex_load_comparison ex_dumps_comparison ex_submissions ex_archive
              "one-two.json" "one" "two" ex_one_two_collision) as [Hstep Hrun].
  split; [vm_compute; reflexivity|]. split.
  - apply (Hrun _ (or_intror (or_intror (or_introl eq_refl)))
             (eq_refl : minimize_archive ex_load_overview ex_dumps_overview
                ex_load_comparison ex_dumps_comparison ex_submissions ex_archive = _)
             [ex_descriptor "one" "three"]).
    + vm_compute; reflexivity.
    + left; reflexivity.
  - apply Hstep. vm_compute; reflexivity.
Defined.

Lemma distinct_author_entries_untouched_witness :
  process_entry ex_load_comparison ex_dumps_comparison (submissions_dict ex_submissions)
    (init_state ex_archive ex_overview) "one-three.json" =
  Ok (init_state ex_archive ex_overview) /\
  dict_lookup "one-three.json" (st_dir (res_default (minimize_archive ex_load_overview
     ex_dumps_overview ex_load_comparison ex_dumps_comparison ex_submissions ex_archive)
     (init_state ex_archive ex_overview))) =
  Some (NFile "{one-three}").
Proof.
  destruct (distinct_author_entries_untouched ex_load_overview ex_dumps_overview
              ex_load_comparison ex_dumps_comparison ex_submissions ex_archive
              "one-three.json" "one" "three" ex_one_three_distinct) as [Hstep Hrun].
  split; [apply Hstep|].
  apply Hrun. vm_compute; reflexivity.
Defined.

Lemma collision_entry_written_then_unlinked_witness :
  exists st,
    minimize_archive ex_load_overview ex_dumps_overview ex_load_comparison
      ex_dumps_comparison ex_submissions ex_archive = Ok st /\
    (exists l1 l2 c, st_log st =
       (l1 ++ [EWrite "one-two.json" (c ++ ex_dumps_comparison (zeroed_record "one" "two"));
               EUnlink "one-two.json"] ++ l2)%list) /\
    dict_lookup "one-two.json" (st_dir st) = None /\
    dict_lookup "one-two.json" (zip_tree (st_dir st)) = None.
Proof.
  exists (res_default (minimize_archive ex_load_overview ex_dumps_overview ex_load_comparison
    ex_dumps_comparison ex_submissions ex_archive) (init_state ex_archive ex_overview)).
  split; [vm_compute; reflexivity|].
  apply (collision_entry_written_then_unlinked ex_load_overview ex_dumps_overview
           ex_load_comparison ex_dumps_comparison ex_submissions ex_archive _
           "one-two.json" "one" "two").
  - vm_compute; reflexivity.
  - simpl. right; right; left; reflexivity.
  - exact ex_one_two_collision.
Defined.

(** C9, the specification's reading refuted: in the log of the example run
    the entry [one-two.json] is written (a zeroed record appended to it)
    before it is unlinked, so the log does not consist of a deletion without
    a write. *)
Lemma collision_entry_not_deleted_directly :
  ~ deletes_without_overwrite
      (st_log (res_default (minimize_archive ex_load_overview ex_dumps_overview
         ex_load_comparison ex_dumps_comparison ex_submissions ex_archive)
         (init_state ex_archive ex_overview))).
Proof.
  unfold deletes_without_overwrite. intros H.
  apply (H "one-two.json" "{one-two}{zeroed}"); vm_compute.
  - right; left; reflexivity.
  - left; reflexivity.
Qed.

Lemma fatal_conditions_write_nothing_witness :
  exists e, _post_process_jplag_results ex_load_overview ex_dumps_overview
    ex_load_comparison ex_dumps_comparison
    [("./reports/python3.jplag", ex_archive_bad_name)] "./reports/python3.jplag"
    ex_submissions =
  ([("./reports/python3.jplag", ex_archive_bad_name)], Err e).
Proof.
  apply (fatal_conditions_write_nothing ex_load_overview ex_dumps_overview
           ex_load_comparison ex_dumps_comparison _ _ ex_submissions ex_archive_bad_name).
  - reflexivity.
  - right; right; left. exists "one-two-three.json".
    split; [right; left; reflexivity|]. split; [reflexivity|]. vm_compute; discriminate.
Defined.

Lemma nonzero_exit_skips_post_processing_witness :
  run ex_load_overview ex_dumps_overview ex_load_comparison ex_dumps_comparison
    ex_stage ex_jplag_failing ex_pyplag [] "python3" ex_submissions =
  ([], Ok {| status := 1; stdout := ""; stderr := "error: no submissions";
             report_path := "./reports/python3.jplag"; report_min_path := None |}).
Proof.
  rewrite (nonzero_exit_skips_post_processing ex_load_overview ex_dumps_overview
             ex_load_comparison ex_dumps_comparison ex_stage ex_jplag_failing
             ex_pyplag [] "python3" ex_submissions "/tmp/pyplag-subs-0"
             {| returncode := 1; proc_stdout := ""; proc_stderr := "error: no submissions" |} []).
  - reflexivity.
  - vm_compute; reflexivity.
  - simpl; lia.
  - reflexivity.
  - reflexivity.
  - simpl; lia.
Defined.

Lemma init_removes_report_dir_witness :
  exists t' self, __init__ ex_settings ex_tree = Ok (t', self) /\ settings self = ex_settings /\
    forall e, In e t' <-> In e ex_tree /\ is_prefix ["."; "reports"] (fst e) = false.
Proof.
  apply (init_removes_report_dir ex_settings ex_tree). vm_compute; reflexivity.
Defined.

Lemma min_report_path_witness :
  with_min_stem (report_file ex_settings "python3") =
  path_str (report_dir ex_settings ++ ["python3" ++ ".min.jplag"]).
Proof. apply (min_report_path ex_settings "python3"); [discriminate | reflexivity]. Defined.

Lemma comparison_name_splits_witness :
  split_pair ("one" ++ "-" ++ "two" ++ ".json") = ["one"; "two"].
Proof. apply (comparison_name_splits "one" "two"); reflexivity. Defined.

Lemma minimize_archive_entries_witness :
  exists st, minimize_archive ex_load_overview ex_dumps_overview ex_load_comparison
    ex_dumps_comparison ex_submissions ex_archive = Ok st /\
  ((exists a b, collision_entry (submissions_dict ex_submissions) "one-two.json" a b) ->
     dict_lookup "one-two.json" (st_dir st) = None) /\
  (~ (exists a b, collision_entry (submissions_dict ex_submissions) "one-two.json" a b) ->
     dict_lookup "one-two.json" (st_dir st) = dict_lookup "one-two.json" ex_archive).
Proof.
  exists (res_default (minimize_archive ex_load_overview ex_dumps_overview ex_load_comparison
    ex_dumps_comparison ex_submissions ex_archive) (init_state ex_archive ex_overview)).
  split; [vm_compute; reflexivity|].
  apply (minimize_archive_entries ex_load_overview ex_dumps_overview ex_load_comparison
           ex_dumps_comparison ex_submissions ex_archive).
  - vm_compute; reflexivity.
  - discriminate.
Defined.

Lemma run_success_conditions_witness :
  exists fs' r,
    run ex_load_overview ex_dumps_overview ex_load_comparison ex_dumps_comparison
      ex_stage ex_jplag_failing ex_pyplag [] "python3" ex_submissions = (fs', Ok r) /\
    (existsb (String.eqb "python3") (supported_languages ex_pyplag)
     || ignore_unsupported_language (settings ex_pyplag)) = true /\
    (2 <= length ex_submissions)%nat /\
    exists submissions_dir result fs1,
      ex_stage ex_submissions = Ok submissions_dir /\
      ex_jplag_failing (jplag_args (settings ex_pyplag) "python3" submissions_dir) [] =
        (result, fs1) /\
      status r = returncode result /\ stdout r = proc_stdout result /\
      stderr r = proc_stderr result /\ report_path r = report_file (settings ex_pyplag) "python3" /\
      (report_min_path r <> None ->
         returncode result = 0 /\ filter_runs_by_author (settings ex_pyplag) = true).
Proof.
  exists [], {| status := 1; stdout := ""; stderr := "error: no submissions";
                report_path := "./reports/python3.jplag"; report_min_path := None |}.
  split; [vm_compute; reflexivity|].
  apply (run_success_conditions ex_load_overview ex_dumps_overview ex_load_comparison
           ex_dumps_comparison ex_stage ex_jplag_failing ex_pyplag [] "python3" ex_submissions
           [] {| status := 1; stdout := ""; stderr := "error: no submissions";
                 report_path := "./reports/python3.jplag"; report_min_path := None |}).
  vm_compute; reflexivity.
Defined.

Lemma run_without_filter_witness :
  run ex_load_overview ex_dumps_overview ex_load_comparison ex_dumps_comparison
    ex_stage ex_jplag_ok ex_pyplag_unfiltered [] "python3" ex_submissions =
  ([("./reports/python3.jplag", ex_archive)],
   Ok {| status := 0; stdout := "ok"; stderr := "";
         report_path := "./reports/python3.jplag"; report_min_path := None |}).
Proof.
  rewrite (run_without_filter ex_load_overview ex_dumps_overview ex_load_comparison
             ex_dumps_comparison ex_stage ex_jplag_ok ex_pyplag_unfiltered [] "python3"
             ex_submissions "/tmp/pyplag-subs-0"
             {| returncode := 0; proc_stdout := "ok"; proc_stderr := "" |}
             [("./reports/python3.jplag", ex_archive)]).
  - reflexivity.
  - reflexivity.
  - vm_compute; reflexivity.
  - simpl; lia.
  - reflexivity.
  - reflexivity.
Defined.


Lemma run_post_processing_error_witness :
  exists e, run ex_load_overview ex_dumps_overview ex_load_comparison ex_dumps_comparison
    ex_stage ex_jplag_silent ex_pyplag [] "python3" ex_submissions = ([], Err e).
Proof.
  apply (run_post_processing_error ex_load_overview ex_dumps_overview ex_load_comparison
           ex_dumps_comparison ex_stage ex_jplag_silent ex_pyplag [] "python3" ex_submissions
           "/tmp/pyplag-subs-0" {| returncode := 0; proc_stdout := ""; proc_stderr := "" |} []).
  - reflexivity.
  - vm_compute; reflexivity.
  - simpl; lia.
  - reflexivity.
  - reflexivity.
  - reflexivity.
  - left; reflexivity.
Defined.

Lemma init_report_dir_not_a_directory_witness :
  __init__ ex_settings [(["."; "reports"], KFile)] = Err NotADirectoryError.
Proof.
  apply (proj2 (init_report_dir_not_a_directory ex_settings [(["."; "reports"], KFile)])).
  reflexivity.
Defined.

Lemma minimize_archive_index_witness :
  exists st, minimize_archive ex_load_overview ex_dumps_overview ex_load_comparison
    ex_dumps_comparison ex_submissions ex_archive = Ok st /\
  (forall s t, index_lookup (st_overview st) s t = None \/
               index_lookup (st_overview st) s t = index_lookup ex_overview s t) /\
  (forall n a b, In n (map fst ex_archive) ->
     collision_entry (submissions_dict ex_submissions) n a b ->
     index_lookup (st_overview st) a b = None) /\
  ((forall s t, index_lookup ex_overview s t = index_lookup ex_overview t s) ->
     forall s t, index_lookup (st_overview st) s t = index_lookup (st_overview st) t s).
Proof.
  exists (res_default (minimize_archive ex_load_overview ex_dumps_overview ex_load_comparison
    ex_dumps_comparison ex_submissions ex_archive) (init_state ex_archive ex_overview)).
  split; [vm_compute; reflexivity|].
  apply (minimize_archive_index ex_load_overview ex_dumps_overview ex_load_comparison
           ex_dumps_comparison ex_submissions ex_archive "{overview}").
  - reflexivity.
  - reflexivity.
  - vm_compute; reflexivity.
Defined.

Lemma minimize_archive_histograms_witness :
  exists st, minimize_archive ex_load_overview ex_dumps_overview ex_load_comparison
    ex_dumps_comparison ex_submissions ex_archive = Ok st /\
  (forall m, m = "MAX" \/ m = "AVG" ->
     hist_total (st_overview st) m =
     option_map (fun t => t - (Z.of_nat (length ex_archive) - Z.of_nat (length (st_dir st))))
       (hist_total ex_overview m)) /\
  (forall m, m <> "MAX" -> m <> "AVG" ->
     metric_hist (st_overview st) m = metric_hist ex_overview m).
Proof.
  exists (res_default (minimize_archive ex_load_overview ex_dumps_overview ex_load_comparison
    ex_dumps_comparison ex_submissions ex_archive) (init_state ex_archive ex_overview)).
  split; [vm_compute; reflexivity|].
  apply (minimize_archive_histograms ex_load_overview ex_dumps_overview ex_load_comparison
           ex_dumps_comparison ex_submissions ex_archive "{overview}").
  - simpl. repeat constructor; simpl; intros H;
      repeat (destruct H as [H|H]; [discriminate H|]); exact H.
  - reflexivity.
  - reflexivity.
  - vm_compute; reflexivity.
Defined.

Lemma correct_metric_bucket_witness :
  bucket_of ex_755 = Ok 75 /\
  (ex_755 = NaN -> correct_metric ex_record ex_overview "MAX" = Err ValueError) /\
  (forall neg, ex_755 = Inf neg ->
     correct_metric ex_record ex_overview "MAX" = Err OverflowError) /\
  (forall b, bucket_of ex_755 = Ok b -> b <= -101 ->
     correct_metric ex_record ex_overview "MAX" = Err IndexError) /\
  (forall b, bucket_of ex_755 = Ok b -> -101 < b ->
     -100 <= b <= 99 /\
     exists i, Z.of_nat i = b mod 100 /\
       correct_metric ex_record ex_overview "MAX" =
         Ok (with_distributions
               (dict_setitem "MAX" (list_update ex_hist i (fun x => x - 1))
                  [("MAX", ex_hist); ("AVG", ex_hist); ("MIN", ex_hist)]) ex_overview)).
Proof.
  split; [vm_compute; reflexivity|].
  apply (correct_metric_bucket ex_record ex_overview "MAX"
           [("MAX", ex_hist); ("AVG", ex_hist); ("MIN", ex_hist)] ex_hist
           [("MAX", ex_755); ("AVG", ex_one)] ex_755); reflexivity.
Defined.
